(** * cbcheck: the fetch / diff / notify / persist pass of [main.go]

    A shallow embedding of [main.go].  Go strings are byte strings
    ([String.string]); Go [int] values are [Z]; an [error] is modelled by
    its text, so a Go result [err] is [option string] with [None] for
    [nil].  The outside world (file system, HTTP client, webhook endpoint,
    clock, database reads and writes) is an explicit record of answers,
    [Env]; every theorem quantifies over it. *)

From Stdlib Require Import String Ascii List ZArith NArith Bool Lia Arith.
Import ListNotations.

Open Scope string_scope.
Open Scope list_scope.

(** ** Constants *)

Definition CrowdBankURL : string := "https://crowdbank.jp".

Definition CrowdBankSearchURL : string :=
  CrowdBankURL ++ "/api/v1/funds/search?keyword=&region=&project=&status=21".

(** ** Data model *)

Record Config := mkConfig {
  UserAgent : string;
  Database : string;
  SlackWebhookURL : string
}.

Record Fund := mkFund {
  ID : string;
  Name : string;
  SubTitle : string;
  LimitAmount : Z;
  Rate : string;
  Description : string;
  Url : string;
  RegionName : string;
  ProjectName : string;
  OpenTime : string;
  CloseTime : string;
  LimitTime : string;
  RaiseMethod : string;
  CurrencyID : string
}.

Record Data := mkData {
  Size : Z;
  Total : Z;
  List : list Fund
}.

Record Response := mkResponse {
  Response_Data : Data
}.

(** [gorm.Model]: primary key and the three timestamps.  Times are
    clock readings; [DeletedAt = None] is SQL [NULL], a row that is not
    soft-deleted. *)
Module gorm.
Record Model := mkModel {
  ID : N;
  CreatedAt : Z;
  UpdatedAt : Z;
  DeletedAt : option Z
}.
End gorm.

Record SendList := mkSendList {
  Model : gorm.Model;
  FundID : string
}.

(** The part of the slack-go message types that [main] fills in; every
    other field of [slack.Attachment] and [slack.WebhookMessage] keeps
    its zero value. *)
Module slack.
Module AttachmentField.
Record t := mk {
  Title : string;
  Value : string;
  Short : bool
}.
End AttachmentField.

Module Attachment.
Record t := mk {
  Title : string;
  TitleLink : string;
  Text : string;
  Fields : list AttachmentField.t;
  MarkdownIn : list string
}.
End Attachment.

Module WebhookMessage.
Record t := mk {
  Text : string;
  Attachments : list Attachment.t
}.
End WebhookMessage.
End slack.

(** ** [Fund.Currency] *)

Definition Currency (f : Fund) : string :=
  if CurrencyID f =? "1" then "日本円"
  else if CurrencyID f =? "2" then "USドル"
  else if CurrencyID f =? "3" then "AUドル"
  else "不明".

(** ** The webhook message built in the loop body *)

Definition field (title value : string) : slack.AttachmentField.t :=
  slack.AttachmentField.mk title value true.

Definition webhook_message (fund : Fund) : slack.WebhookMessage.t :=
  slack.WebhookMessage.mk
    (Name fund)
    [ slack.Attachment.mk
        (SubTitle fund)
        (CrowdBankURL ++ Url fund)
        (Description fund)
        [ field "地域" (RegionName fund);
          field "プロジェクト" (ProjectName fund);
          field "募集開始日" (OpenTime fund);
          field "募集終了日" (CloseTime fund);
          field "利率" (Rate fund ++ "%");
          field "募集方法" (RaiseMethod fund);
          field "通貨" (Currency fund) ]
        [ "text" ] ].

(** ** The outside world

    A Go call that returns [(value, err)] yields a [result]; one that
    returns only [err] yields [option string]. *)

Inductive result (A : Type) : Type :=
| Ok (a : A)
| Err (err : string).
Arguments Ok {A} a.
Arguments Err {A} err.

(** An HTTP response as [main] uses it.  [main] never reads the status
    code.  The body is read only through
    [json.NewDecoder(resp.Body).Decode(&response)], so it is represented
    by what that call yields on it. *)
Record HttpResponse := mkHttpResponse {
  StatusCode : Z;
  Body : result Response
}.

(** The answers of the environment.  The webhook endpoint, the
    database (its writer and its reader) and the clock are asked at a
    position in the run (the number of events so far), so that their
    answers may change from one call to the next.  [First_error] is the
    failure of a query in the store itself (a locked or damaged file, a
    missing table); [None] means the query ran. *)
Record Env := mkEnv {
  os_Open : string -> option string;
  io_ReadAll : string -> result string;
  yaml_Unmarshal : string -> result Config;
  gorm_Open : string -> option string;
  AutoMigrate_error : option string;
  http_NewRequest : string -> string -> option string;
  http_Do : string -> string -> result HttpResponse;
  slack_PostWebhook : nat -> string -> slack.WebhookMessage.t -> option string;
  Create_io_error : nat -> string -> option string;
  time_Now : nat -> Z;
  First_error : nat -> string -> option string
}.

(** What the process does to the outside world, in order.  The fund
    identifier carried by [EvPostWebhook] is the identifier of the loop
    iteration that posts; it is not part of the message sent. *)
Inductive event : Type :=
| EvAutoMigrate (err : option string)
| EvGet (url userAgent : string)
| EvPostWebhook (fundID url : string) (msg : slack.WebhookMessage.t)
                (err : option string)
| EvCreate (fundID : string) (err : option string)
| EvPrintf (line : string)
| EvFatalf (line : string).

(** The rows of table [send_lists] and the events of the run so far. *)
Record State := mkState {
  table : list SendList;
  trace : list event
}.

Definition emit (e : event) (st : State) : State :=
  mkState (table st) (trace st ++ [e]).

(** ** [Load] *)

Definition Load (env : Env) (path : string) : result Config :=
  match os_Open env path with
  | Some err => Err err
  | None =>
      match io_ReadAll env path with
      | Err err => Err err
      | Ok buf =>
          match yaml_Unmarshal env buf with
          | Err err => Err err
          | Ok conf => Ok conf
          end
      end
  end.

(** ** Persistence: table [send_lists] through gorm

    [SendList] embeds [gorm.Model], whose [DeletedAt] field makes gorm
    add [deleted_at IS NULL] to every query that is not [Unscoped], and
    [First] orders by primary key and takes one row.  So
    [db.Where("fund_id = ?", id).First(&sendList)] is
    [SELECT * FROM send_lists WHERE fund_id = id AND deleted_at IS NULL
     ORDER BY id LIMIT 1]. *)

Definition live (r : SendList) : bool :=
  match gorm.DeletedAt (Model r) with
  | None => true
  | Some _ => false
  end.

Definition selected (fundID : string) (r : SendList) : bool :=
  (FundID r =? fundID) && live r.

Fixpoint least_id (rows : list SendList) : option SendList :=
  match rows with
  | [] => None
  | r :: rest =>
      match least_id rest with
      | None => Some r
      | Some r' =>
          if (gorm.ID (Model r) <=? gorm.ID (Model r'))%N then Some r
          else Some r'
      end
  end.

(** The row this query selects when it runs; whether it runs is the
    answer [First_error] of the environment, see [First_into]. *)
Definition db_First (rows : list SendList) (fundID : string) : option SendList :=
  least_id (filter (selected fundID) rows).

(** The zero value of [SendList], what [var sendList SendList] holds and
    what [First] leaves in place when it finds no row. *)
Definition zero_SendList : SendList :=
  mkSendList (gorm.mkModel 0%N 0%Z 0%Z None) "".

(** The test of line 138 on what a query that ran leaves in
    [sendList]. *)
Definition already_sent (rows : list SendList) (fundID : string) : bool :=
  let sendList :=
    match db_First rows fundID with
    | Some r => r
    | None => zero_SendList
    end in
  negb (FundID sendList =? "").

(** Lines 136-138 as the loop runs them.  The value returned by
    [First], and with it the error of the query, is dropped at line 137:
    when the query fails in the store, [sendList] keeps its zero value
    and the fund is taken for one that was not sent. *)
Definition First_into (env : Env) (at_ : nat) (rows : list SendList)
    (fundID : string) : SendList :=
  match First_error env at_ fundID with
  | Some _ => zero_SendList
  | None =>
      match db_First rows fundID with
      | Some r => r
      | None => zero_SendList
      end
  end.

Definition is_sent (env : Env) (at_ : nat) (rows : list SendList)
    (fundID : string) : bool :=
  negb (FundID (First_into env at_ rows fundID) =? "").

(** [db.Create(&SendList{FundID: id}).Error].  The write can fail in the
    store itself (the answer of the environment; a missing table, when
    [AutoMigrate] failed, is such a failure of every write), or on the
    [UNIQUE] constraint of column [fund_id], which counts every row of
    the table, soft-deleted or not.  Otherwise a row is added with the
    next primary key, both timestamps set to the clock, and no deletion
    time. *)
Definition next_id (rows : list SendList) : N :=
  N.succ (fold_right N.max 0%N (map (fun r => gorm.ID (Model r)) rows)).

Definition has_record (rows : list SendList) (fundID : string) : bool :=
  existsb (fun r => FundID r =? fundID) rows.

Definition unique_violation : string :=
  "UNIQUE constraint failed: send_lists.fund_id".

Definition db_Create (env : Env) (at_ : nat) (rows : list SendList)
    (fundID : string) : option string * list SendList :=
  match Create_io_error env at_ fundID with
  | Some err => (Some err, rows)
  | None =>
      if has_record rows fundID then (Some unique_violation, rows)
      else
        let now := time_Now env at_ in
        (None,
         rows ++ [ mkSendList (gorm.mkModel (next_id rows) now now None)
                              fundID ])
  end.

(** ** The loop of [main], lines 134-201 *)

Definition loop_body (env : Env) (conf : Config) (fund : Fund) (st : State)
    : State :=
  if is_sent env (length (trace st)) (table st) (ID fund) then st
  else
    let msg := webhook_message fund in
    let err := slack_PostWebhook env (length (trace st))
                                 (SlackWebhookURL conf) msg in
    let st1 := emit (EvPostWebhook (ID fund) (SlackWebhookURL conf) msg err) st in
    match err with
    | Some e => emit (EvPrintf ("Failed to post webhook: " ++ e)) st1
    | None =>
        let '(err', rows') :=
          db_Create env (length (trace st1)) (table st1) (ID fund) in
        let st2 := emit (EvCreate (ID fund) err') (mkState rows' (trace st1)) in
        match err' with
        | Some e => emit (EvPrintf ("Failed to save to database: " ++ e)) st2
        | None => st2
        end
    end.

Definition notify_loop (env : Env) (conf : Config) (funds : list Fund)
    (st : State) : State :=
  fold_left (fun st fund => loop_body env conf fund st) funds st.

(** ** [main]

    [log.Fatalf] prints and ends the process with status 1: a small
    state monad with an exit.  [main] is embedded from line 99 on:
    [confPath] is the path that [flag.Parse] (lines 95-97) left in the
    variable.  A command line that [flag.Parse] rejects ends the process
    there, before line 99, and is not a run in the sense of this file. *)

Inductive outcome (A : Type) : Type :=
| Continue (a : A)
| Exit (status : Z).
Arguments Continue {A} a.
Arguments Exit {A} status.

Definition M (A : Type) : Type := State -> outcome A * State.

Definition ret {A} (a : A) : M A := fun st => (Continue a, st).

Definition bind {A B} (m : M A) (k : A -> M B) : M B :=
  fun st =>
    match m st with
    | (Continue a, st') => k a st'
    | (Exit status, st') => (Exit status, st')
    end.

Notation "x <- m ;; k" := (bind m (fun x => k))
  (at level 61, m at next level, right associativity).
Notation "m ;;; k" := (bind m (fun _ => k))
  (at level 61, right associativity).

Definition log_Fatalf {A} (line : string) : M A :=
  fun st => (Exit 1, emit (EvFatalf line) st).

Definition do_event (e : event) : M unit :=
  fun st => (Continue tt, emit e st).

Definition fatal_if (format : string) (err : option string) : M unit :=
  match err with
  | Some e => log_Fatalf (format ++ e)
  | None => ret tt
  end.

Definition value_or_fatal {A} (format : string) (r : result A) : M A :=
  match r with
  | Err e => log_Fatalf (format ++ e)
  | Ok a => ret a
  end.

Definition main (env : Env) (confPath : string) : M unit :=
  conf <- value_or_fatal "Failed to load config: " (Load env confPath) ;;
  fatal_if "Failed to open database: " (gorm_Open env (Database conf)) ;;;
  (* the error returned by AutoMigrate is dropped *)
  do_event (EvAutoMigrate (AutoMigrate_error env)) ;;;
  fatal_if "Failed to create request: "
           (http_NewRequest env "GET" CrowdBankSearchURL) ;;;
  do_event (EvGet CrowdBankSearchURL (UserAgent conf)) ;;;
  resp <- value_or_fatal "Failed to request: "
            (http_Do env CrowdBankSearchURL (UserAgent conf)) ;;
  response <- value_or_fatal "Failed to decode json: " (Body resp) ;;
  fun st =>
    (Continue tt, notify_loop env conf (List (Response_Data response)) st).

(** One invocation of the program on the database file holding [rows]:
    exit status (0 when [main] returns), rows left in the file, events. *)
Definition run (env : Env) (confPath : string) (rows : list SendList)
    : Z * list SendList * list event :=
  match main env confPath (mkState rows []) with
  | (Continue _, st) => (0%Z, table st, trace st)
  | (Exit status, st) => (status, table st, trace st)
  end.

(** Successive invocations on one database file; each has its own
    environment and configuration path.  Returns the rows left and all
    events, in order. *)
Fixpoint lifetime (runs : list (Env * string)) (rows : list SendList)
    : list SendList * list event :=
  match runs with
  | [] => (rows, [])
  | (env, confPath) :: later =>
      let '(_, rows', events) := run env confPath rows in
      let '(rows'', events') := lifetime later rows' in
      (rows'', events ++ events')
  end.

(** ** Reading a trace *)

Definition is_post (e : event) : bool :=
  match e with
  | EvPostWebhook _ _ _ _ => true
  | _ => false
  end.

Definition is_post_for (fundID : string) (e : event) : bool :=
  match e with
  | EvPostWebhook f _ _ _ => f =? fundID
  | _ => false
  end.

(** A post the endpoint accepted: a notification delivered. *)
Definition is_delivered_for (fundID : string) (e : event) : bool :=
  match e with
  | EvPostWebhook f _ _ None => f =? fundID
  | _ => false
  end.

Definition is_create (e : event) : bool :=
  match e with
  | EvCreate _ _ => true
  | _ => false
  end.

Definition is_create_for (fundID : string) (e : event) : bool :=
  match e with
  | EvCreate f _ => f =? fundID
  | _ => false
  end.

Definition is_fatal (e : event) : bool :=
  match e with
  | EvFatalf _ => true
  | _ => false
  end.

Definition count (p : event -> bool) (events : list event) : nat :=
  length (filter p events).

(** ** What "in persistence" can mean for an identifier *)

(** Some row of the table, soft-deleted or not, carries it:
    [has_record].  Some row that is not soft-deleted carries it: *)
Definition has_live_record (rows : list SendList) (fundID : string) : bool :=
  existsb (selected fundID) rows.

Definition all_live (rows : list SendList) : Prop :=
  Forall (fun r => live r = true) rows.

(** ** Sample worlds, used to run the program on concrete inputs *)

Module Sample.

Definition conf : Config :=
  mkConfig "cbcheck/1.0" "cbcheck.db" "https://hooks.slack.com/services/T0/B0/x".

Definition fundA : Fund :=
  mkFund "F1" "Fund A" "Harbour loan" 50000000 "5.2" "Short term loan"
         "/funds/F1" "Kanto" "Real estate" "2023-04-01 10:00"
         "2023-04-30 23:59" "2023-04-20 23:59" "lottery" "1".

Definition fundB : Fund :=
  mkFund "F2" "Fund B" "Solar park" 80000000 "6.0" "Energy project"
         "/funds/F2" "Queensland" "Energy" "2023-05-01 10:00"
         "2023-05-31 23:59" "2023-05-20 23:59" "first come" "3".

(** A fund whose [id] is absent from the JSON (or empty). *)
Definition fundNoID : Fund :=
  mkFund "" "Fund C" "" 0 "4.0" "" "/funds/" "" "" "" "" "" "" "9".

Definition response (funds : list Fund) : Response :=
  mkResponse (mkData (Z.of_nat (length funds)) (Z.of_nat (length funds)) funds).

(** A world where the configuration loads, the database opens and the
    clock reads 1700000000; the rest is chosen by the arguments. *)
Definition world (migrate : option string) (reply : result HttpResponse)
    (webhook : nat -> string -> slack.WebhookMessage.t -> option string)
    (write : nat -> string -> option string) : Env :=
  mkEnv (fun _ => None)
        (fun _ => Ok "UserAgent: cbcheck/1.0")
        (fun _ => Ok conf)
        (fun _ => None)
        migrate
        (fun _ _ => None)
        (fun _ _ => reply)
        webhook
        write
        (fun _ => 1700000000%Z)
        (fun _ _ => None).

Definition accepts : nat -> string -> slack.WebhookMessage.t -> option string :=
  fun _ _ _ => None.

Definition rejects : nat -> string -> slack.WebhookMessage.t -> option string :=
  fun _ _ _ => Some "slack server error: 500 Internal Server Error".

Definition writes : nat -> string -> option string :=
  fun _ _ => None.

Definition disk_full : nat -> string -> option string :=
  fun _ _ => Some "database or disk is full".

(** Everything works and the API lists [funds]. *)
Definition healthy (funds : list Fund) : Env :=
  world None (Ok (mkHttpResponse 200 (Ok (response funds)))) accepts writes.

Definition row (id : N) (deleted : option Z) (fundID : string) : SendList :=
  mkSendList (gorm.mkModel id 1690000000%Z 1690000000%Z deleted) fundID.

(** The same world, but its queries answer as [query] says. *)
Definition with_query (query : nat -> string -> option string) (env : Env)
    : Env :=
  mkEnv (os_Open env) (io_ReadAll env) (yaml_Unmarshal env) (gorm_Open env)
        (AutoMigrate_error env) (http_NewRequest env) (http_Do env)
        (slack_PostWebhook env) (Create_io_error env) (time_Now env)
        query.

Definition locked : nat -> string -> option string :=
  fun _ _ => Some "database is locked".

End Sample.

(** ** One pass through the loop body, as a relation

    The four ways through lines 134-201, as a relation between the state
    before and the state after. *)

Section Iteration.

Variables (env : Env) (conf : Config).

Definition post_answer (fund : Fund) (st : State) : option string :=
  slack_PostWebhook env (length (trace st)) (SlackWebhookURL conf)
                    (webhook_message fund).

Definition post_event (fund : Fund) (err : option string) : event :=
  EvPostWebhook (ID fund) (SlackWebhookURL conf) (webhook_message fund) err.

Inductive iteration (fund : Fund) (st : State) : State -> Prop :=
| it_skip :
    is_sent env (length (trace st)) (table st) (ID fund) = true ->
    iteration fund st st
| it_post_failed (e : string) :
    is_sent env (length (trace st)) (table st) (ID fund) = false ->
    post_answer fund st = Some e ->
    iteration fund st
      (mkState (table st)
         (trace st ++ [ post_event fund (Some e);
                        EvPrintf ("Failed to post webhook: " ++ e) ]))
| it_create_failed (e : string) :
    is_sent env (length (trace st)) (table st) (ID fund) = false ->
    post_answer fund st = None ->
    (Create_io_error env (S (length (trace st))) (ID fund) = Some e \/
     Create_io_error env (S (length (trace st))) (ID fund) = None /\
     has_record (table st) (ID fund) = true /\ e = unique_violation) ->
    iteration fund st
      (mkState (table st)
         (trace st ++ [ post_event fund None;
                        EvCreate (ID fund) (Some e);
                        EvPrintf ("Failed to save to database: " ++ e) ]))
| it_created (row : SendList) :
    is_sent env (length (trace st)) (table st) (ID fund) = false ->
    post_answer fund st = None ->
    Create_io_error env (S (length (trace st))) (ID fund) = None ->
    has_record (table st) (ID fund) = false ->
    FundID row = ID fund ->
    gorm.DeletedAt (Model row) = None ->
    iteration fund st
      (mkState (table st ++ [row])
         (trace st ++ [ post_event fund None; EvCreate (ID fund) None ])).

End Iteration.

(** ** Notions used in the statements *)

(** Two fund records that agree on every field but [LimitAmount] and
    [LimitTime]. *)
Definition same_but_limits (f g : Fund) : Prop :=
  ID f = ID g /\ Name f = Name g /\ SubTitle f = SubTitle g /\
  Rate f = Rate g /\ Description f = Description g /\ Url f = Url g /\
  RegionName f = RegionName g /\ ProjectName f = ProjectName g /\
  OpenTime f = OpenTime g /\ CloseTime f = CloseTime g /\
  RaiseMethod f = RaiseMethod g /\ CurrencyID f = CurrencyID g.

(** A fund of the fetched list with no row that is not soft-deleted. *)
Definition is_new (rows : list SendList) (fund : Fund) : bool :=
  negb (has_live_record rows (ID fund)).

(** The fetch failed: the HTTP client returned an error, or the body of
    its response does not decode. *)
Definition fetch_failed (r : result HttpResponse) : Prop :=
  match r with
  | Err _ => True
  | Ok resp =>
      match Body resp with
      | Err _ => True
      | Ok _ => False
      end
  end.

(** The same world, but every response carries status [code]. *)
Definition with_status (code : Z) (env : Env) : Env :=
  mkEnv (os_Open env) (io_ReadAll env) (yaml_Unmarshal env) (gorm_Open env)
        (AutoMigrate_error env) (http_NewRequest env)
        (fun url userAgent =>
           match http_Do env url userAgent with
           | Ok resp => Ok (mkHttpResponse code (Body resp))
           | Err e => Err e
           end)
        (slack_PostWebhook env) (Create_io_error env) (time_Now env)
        (First_error env).

(** The same world, but [AutoMigrate] returns [err]. *)
Definition with_migration (err : option string) (env : Env) : Env :=
  mkEnv (os_Open env) (io_ReadAll env) (yaml_Unmarshal env) (gorm_Open env)
        err (http_NewRequest env) (http_Do env)
        (slack_PostWebhook env) (Create_io_error env) (time_Now env)
        (First_error env).

(** The events of a run, with the outcome of the migration replaced. *)
Definition relabel_migration (err : option string) (e : event) : event :=
  match e with
  | EvAutoMigrate _ => EvAutoMigrate err
  | _ => e
  end.

(** What an identifier may still receive: one notification if it has no
    row that is not soft-deleted, none otherwise. *)
Definition credit (rows : list SendList) (fundID : string) : nat :=
  if has_live_record rows fundID then 0 else 1.

(** ** Further notions: what a run may do *)

Definition is_get (e : event) : bool :=
  match e with
  | EvGet _ _ => true
  | _ => false
  end.

(** An insert that succeeded. *)
Definition is_inserted (e : event) : bool :=
  match e with
  | EvCreate _ None => true
  | _ => false
  end.

(** The identifiers under which posts were attempted, in order. *)
Definition posted_ids (events : list event) : list string :=
  flat_map (fun e => match e with
                     | EvPostWebhook f _ _ _ => [f]
                     | _ => []
                     end) events.

(** An insert is attempted only right after a delivered post under the
    same identifier: [prev] is the event just before [events]. *)
Fixpoint inserts_follow_posts (prev : option event) (events : list event)
    : bool :=
  match events with
  | [] => true
  | e :: rest =>
      match e with
      | EvCreate f _ =>
          match prev with
          | Some (EvPostWebhook f' _ _ None) => f' =? f
          | _ => false
          end
      | _ => true
      end && inserts_follow_posts (Some e) rest
  end.

(** A post that failed; an insert that failed. *)
Definition is_failed_post (e : event) : bool :=
  match e with
  | EvPostWebhook _ _ _ (Some _) => true
  | _ => false
  end.

Definition is_failed_create (e : event) : bool :=
  match e with
  | EvCreate _ (Some _) => true
  | _ => false
  end.

(** The events the loop can append when run over [funds] with
    configuration [conf]: a post of the message of one of the funds to
    the configured URL, an insert under the identifier of one of the
    funds, or a log line that is not fatal. *)
Definition loop_event (conf : Config) (funds : list Fund) (e : event) : Prop :=
  match e with
  | EvPostWebhook f url msg _ =>
      url = SlackWebhookURL conf /\
      exists fund, In fund funds /\ f = ID fund /\ msg = webhook_message fund
  | EvCreate f _ => exists fund, In fund funds /\ f = ID fund
  | EvPrintf _ => True
  | _ => False
  end.

(** The rows the loop can add when run over [funds]. *)
Definition added_row (funds : list Fund) (r : SendList) : Prop :=
  gorm.DeletedAt (Model r) = None /\
  exists fund, In fund funds /\ FundID r = ID fund.

(** Every way [run] can go: the five fatal exits of lines 99-132, each
    with the events before it and its log line, and the pass through the
    loop. *)
Inductive run_shape (env : Env) (confPath : string) (rows : list SendList)
    : Z * list SendList * list event -> Prop :=
| rs_load (e : string) :
    Load env confPath = Err e ->
    run_shape env confPath rows
      (1%Z, rows, [EvFatalf ("Failed to load config: " ++ e)])
| rs_open (conf : Config) (e : string) :
    Load env confPath = Ok conf ->
    gorm_Open env (Database conf) = Some e ->
    run_shape env confPath rows
      (1%Z, rows, [EvFatalf ("Failed to open database: " ++ e)])
| rs_request (conf : Config) (e : string) :
    Load env confPath = Ok conf ->
    gorm_Open env (Database conf) = None ->
    http_NewRequest env "GET" CrowdBankSearchURL = Some e ->
    run_shape env confPath rows
      (1%Z, rows,
       [EvAutoMigrate (AutoMigrate_error env);
        EvFatalf ("Failed to create request: " ++ e)])
| rs_do (conf : Config) (e : string) :
    Load env confPath = Ok conf ->
    gorm_Open env (Database conf) = None ->
    http_NewRequest env "GET" CrowdBankSearchURL = None ->
    http_Do env CrowdBankSearchURL (UserAgent conf) = Err e ->
    run_shape env confPath rows
      (1%Z, rows,
       [EvAutoMigrate (AutoMigrate_error env);
        EvGet CrowdBankSearchURL (UserAgent conf);
        EvFatalf ("Failed to request: " ++ e)])
| rs_decode (conf : Config) (resp : HttpResponse) (e : string) :
    Load env confPath = Ok conf ->
    gorm_Open env (Database conf) = None ->
    http_NewRequest env "GET" CrowdBankSearchURL = None ->
    http_Do env CrowdBankSearchURL (UserAgent conf) = Ok resp ->
    Body resp = Err e ->
    run_shape env confPath rows
      (1%Z, rows,
       [EvAutoMigrate (AutoMigrate_error env);
        EvGet CrowdBankSearchURL (UserAgent conf);
        EvFatalf ("Failed to decode json: " ++ e)])
| rs_loop (conf : Config) (resp : HttpResponse) (response : Response) :
    Load env confPath = Ok conf ->
    gorm_Open env (Database conf) = None ->
    http_NewRequest env "GET" CrowdBankSearchURL = None ->
    http_Do env CrowdBankSearchURL (UserAgent conf) = Ok resp ->
    Body resp = Ok response ->
    run_shape env confPath rows
      (0%Z,
       table (notify_loop env conf (List (Response_Data response))
                (mkState rows [EvAutoMigrate (AutoMigrate_error env);
                               EvGet CrowdBankSearchURL (UserAgent conf)])),
       trace (notify_loop env conf (List (Response_Data response))
                (mkState rows [EvAutoMigrate (AutoMigrate_error env);
                               EvGet CrowdBankSearchURL (UserAgent conf)]))).

(** ** The queries and the failed inserts of a run

    The loop leaves no event for a query.  These functions replay a run
    and list the queries it makes, each with the identifier asked for and
    the error of the query, so that a statement can speak of the queries
    that were made, and of no other. *)

Fixpoint loop_queries (env : Env) (conf : Config) (funds : list Fund)
    (st : State) : list (string * option string) :=
  match funds with
  | [] => []
  | fund :: rest =>
      (ID fund, First_error env (length (trace st)) (ID fund))
        :: loop_queries env conf rest (loop_body env conf fund st)
  end.

(** Where [main] enters the loop, if it does: the configuration, the
    funds decoded, and the state at line 134. *)
Definition loop_entry (env : Env) (confPath : string) (rows : list SendList)
    : option (Config * list Fund * State) :=
  match Load env confPath with
  | Err _ => None
  | Ok conf =>
      match gorm_Open env (Database conf) with
      | Some _ => None
      | None =>
          match http_NewRequest env "GET" CrowdBankSearchURL with
          | Some _ => None
          | None =>
              match http_Do env CrowdBankSearchURL (UserAgent conf) with
              | Err _ => None
              | Ok resp =>
                  match Body resp with
                  | Err _ => None
                  | Ok response =>
                      Some (conf, List (Response_Data response),
                            mkState rows
                              [EvAutoMigrate (AutoMigrate_error env);
                               EvGet CrowdBankSearchURL (UserAgent conf)])
                  end
              end
          end
      end
  end.

Definition run_queries (env : Env) (confPath : string) (rows : list SendList)
    : list (string * option string) :=
  match loop_entry env confPath rows with
  | Some (conf, funds, st) => loop_queries env conf funds st
  | None => []
  end.

Fixpoint lifetime_queries (runs : list (Env * string)) (rows : list SendList)
    : list (string * option string) :=
  match runs with
  | [] => []
  | (env, confPath) :: later =>
      run_queries env confPath rows ++
      lifetime_queries later (snd (fst (run env confPath rows)))
  end.

(** A query that failed in the store; one that failed for [fundID]. *)
Definition failed_query (q : string * option string) : bool :=
  match snd q with
  | Some _ => true
  | None => false
  end.

Definition failed_query_for (fundID : string) (q : string * option string)
    : bool :=
  (fst q =? fundID) && failed_query q.

(** An insert under [fundID] that failed. *)
Definition is_failed_create_for (fundID : string) (e : event) : bool :=
  match e with
  | EvCreate f (Some _) => f =? fundID
  | _ => false
  end.

(** * Properties *)

(** ** The lookup and the existence test *)

Lemma least_id_In (rows : list SendList) (r : SendList) :
  least_id rows = Some r -> In r rows.
Proof.
  revert r; induction rows as [|r0 rest IH]; intros r; simpl.
  - discriminate.
  - destruct (least_id rest) as [r'|].
    + destruct (gorm.ID (Model r0) <=? gorm.ID (Model r'))%N;
        intros [= <-]; auto.
    + intros [= <-]; auto.
Qed.

Lemma least_id_None (rows : list SendList) :
  least_id rows = None -> rows = [].
Proof.
  destruct rows as [|r0 rest]; simpl; auto.
  destruct (least_id rest) as [r'|]; [|discriminate].
  destruct (gorm.ID (Model r0) <=? gorm.ID (Model r'))%N; discriminate.
Qed.

Lemma selected_true (fundID : string) (r : SendList) :
  selected fundID r = true <->
  FundID r = fundID /\ gorm.DeletedAt (Model r) = None.
Proof.
  unfold selected, live. rewrite andb_true_iff, String.eqb_eq.
  destruct (gorm.DeletedAt (Model r)); intuition congruence.
Qed.

Lemma db_First_Some (rows : list SendList) (fundID : string) (r : SendList) :
  db_First rows fundID = Some r ->
  In r rows /\ FundID r = fundID /\ gorm.DeletedAt (Model r) = None.
Proof.
  unfold db_First. intros H. apply least_id_In in H.
  apply filter_In in H. destruct H as [Hin Hsel].
  apply selected_true in Hsel. tauto.
Qed.

Lemma db_First_None (rows : list SendList) (fundID : string) :
  db_First rows fundID = None -> has_live_record rows fundID = false.
Proof.
  unfold db_First, has_live_record. intros H. apply least_id_None in H.
  destruct (existsb (selected fundID) rows) eqn:E; auto.
  apply existsb_exists in E. destruct E as [r [Hin Hsel]].
  assert (Hf : In r (filter (selected fundID) rows))
    by (apply filter_In; auto).
  rewrite H in Hf. destruct Hf.
Qed.

Lemma has_live_record_true (rows : list SendList) (fundID : string) :
  has_live_record rows fundID = true <->
  exists r, In r rows /\ FundID r = fundID /\ gorm.DeletedAt (Model r) = None.
Proof.
  unfold has_live_record. rewrite existsb_exists.
  split; intros [r [Hin H]]; exists r; split; auto; apply selected_true; auto.
Qed.

(** For an identifier that is not the empty string the test of the loop
    is the search for a row that is not soft-deleted. *)
Lemma already_sent_live (rows : list SendList) (fundID : string) :
  fundID <> "" -> already_sent rows fundID = has_live_record rows fundID.
Proof.
  intros Hne. unfold already_sent.
  destruct (db_First rows fundID) as [r|] eqn:E.
  - apply db_First_Some in E. destruct E as [Hin [Hid Hlive]].
    assert (Hl : has_live_record rows fundID = true)
      by (apply has_live_record_true; eauto).
    rewrite Hl, Hid. apply negb_true_iff, String.eqb_neq; auto.
  - apply db_First_None in E. rewrite E. reflexivity.
Qed.

(** For the empty identifier the test never succeeds: the row found, if
    any, has the same [FundID] as the zero value. *)
Lemma already_sent_empty (rows : list SendList) :
  already_sent rows "" = false.
Proof.
  unfold already_sent.
  destruct (db_First rows "") as [r|] eqn:E.
  - apply db_First_Some in E. destruct E as [_ [Hid _]]. rewrite Hid.
    reflexivity.
  - reflexivity.
Qed.

Lemma already_sent_true (rows : list SendList) (fundID : string) :
  already_sent rows fundID = true <->
  fundID <> "" /\ has_live_record rows fundID = true.
Proof.
  destruct (String.eqb_spec fundID "") as [->|Hne].
  - rewrite already_sent_empty. split; [discriminate|tauto].
  - rewrite already_sent_live by assumption. tauto.
Qed.

(** The test as the loop runs it: a query that fails says "not sent"; a
    query that runs is the test on the rows. *)
Lemma is_sent_failed (env : Env) (at_ : nat) (rows : list SendList)
    (fundID e : string) :
  First_error env at_ fundID = Some e -> is_sent env at_ rows fundID = false.
Proof. unfold is_sent, First_into. intros ->. reflexivity. Qed.

Lemma is_sent_ran (env : Env) (at_ : nat) (rows : list SendList)
    (fundID : string) :
  First_error env at_ fundID = None ->
  is_sent env at_ rows fundID = already_sent rows fundID.
Proof. unfold is_sent, First_into, already_sent. intros ->. reflexivity. Qed.

Lemma is_sent_true (env : Env) (at_ : nat) (rows : list SendList)
    (fundID : string) :
  is_sent env at_ rows fundID = true ->
  First_error env at_ fundID = None /\ already_sent rows fundID = true.
Proof.
  destruct (First_error env at_ fundID) as [e|] eqn:Hq.
  - rewrite (is_sent_failed _ _ _ _ _ Hq). discriminate.
  - rewrite (is_sent_ran _ _ _ _ Hq). auto.
Qed.

Lemma is_sent_false (env : Env) (at_ : nat) (rows : list SendList)
    (fundID : string) :
  already_sent rows fundID = false -> is_sent env at_ rows fundID = false.
Proof.
  intros Hs. destruct (is_sent env at_ rows fundID) eqn:E; auto.
  apply is_sent_true in E. destruct E as [_ E]. congruence.
Qed.

Lemma has_live_record_app (rows more : list SendList) (fundID : string) :
  has_live_record (rows ++ more) fundID =
  has_live_record rows fundID || has_live_record more fundID.
Proof. unfold has_live_record. apply existsb_app. Qed.

Lemma has_live_record_has_record (rows : list SendList) (fundID : string) :
  has_live_record rows fundID = true -> has_record rows fundID = true.
Proof.
  unfold has_live_record, has_record. rewrite !existsb_exists.
  intros [r [Hin Hsel]]. exists r. split; auto.
  apply selected_true in Hsel. apply String.eqb_eq. tauto.
Qed.

(** Where no row is soft-deleted the two readings of "has a record"
    agree. *)
Lemma all_live_has_record (rows : list SendList) (fundID : string) :
  all_live rows -> has_record rows fundID = has_live_record rows fundID.
Proof.
  unfold all_live, has_record, has_live_record, selected.
  induction 1 as [|r rest Hr _ IH]; simpl; auto.
  rewrite Hr, andb_true_r, IH. reflexivity.
Qed.

(** ** One pass through the loop body *)

Lemma loop_body_iteration (env : Env) (conf : Config) (fund : Fund)
    (st : State) :
  iteration env conf fund st (loop_body env conf fund st).
Proof.
  unfold loop_body.
  destruct (is_sent env (length (trace st)) (table st) (ID fund)) eqn:Hsent.
  - apply it_skip; assumption.
  - cbv zeta.
    destruct (slack_PostWebhook env (length (trace st))
                (SlackWebhookURL conf) (webhook_message fund))
      as [e|] eqn:Hpost.
    + unfold emit; simpl. rewrite <- app_assoc. simpl.
      apply it_post_failed; assumption.
    + unfold db_Create, emit; simpl.
      rewrite length_app; simpl. rewrite Nat.add_1_r.
      destruct (Create_io_error env (S (length (trace st))) (ID fund))
        as [e|] eqn:Hio.
      * simpl. rewrite <- !app_assoc. simpl.
        apply it_create_failed; auto.
      * destruct (has_record (table st) (ID fund)) eqn:Hrec.
        -- simpl. rewrite <- !app_assoc. simpl.
           apply it_create_failed; auto.
        -- simpl. rewrite <- !app_assoc. simpl.
           apply it_created; auto.
Qed.

Lemma notify_loop_cons (env : Env) (conf : Config) (fund : Fund)
    (rest : list Fund) (st : State) :
  notify_loop env conf (fund :: rest) st =
  notify_loop env conf rest (loop_body env conf fund st).
Proof. reflexivity. Qed.

(** ** Counting in traces *)

Lemma count_app (p : event -> bool) (l l' : list event) :
  count p (l ++ l') = count p l + count p l'.
Proof. unfold count. rewrite filter_app, length_app. reflexivity. Qed.

Lemma count_nil (p : event -> bool) : count p [] = 0.
Proof. reflexivity. Qed.

Lemma count_cons (p : event -> bool) (e : event) (l : list event) :
  count p (e :: l) = (if p e then 1 else 0) + count p l.
Proof. unfold count. simpl. destruct (p e); reflexivity. Qed.

(** Reduce the count of a trace extended by the events of one
    iteration. *)
Ltac count_events :=
  rewrite ?count_app, ?count_cons, ?count_nil; simpl;
  rewrite ?String.eqb_refl; simpl.

(** ** What the loop appends *)

Lemma loop_event_mono (conf : Config) (funds funds' : list Fund) (e : event) :
  incl funds funds' -> loop_event conf funds e -> loop_event conf funds' e.
Proof.
  intros Hincl. destruct e as [| | f url msg err | f err | |]; simpl; auto.
  - intros [Hurl [fund (Hin & Hf & Hm)]]. split; auto.
    exists fund. auto.
  - intros [fund [Hin Hf]]. exists fund. auto.
Qed.

Lemma added_row_mono (funds funds' : list Fund) (r : SendList) :
  incl funds funds' -> added_row funds r -> added_row funds' r.
Proof.
  intros Hincl [Hl [fund [Hin Hf]]]. split; auto. exists fund. auto.
Qed.

Lemma iteration_grows (env : Env) (conf : Config) (fund : Fund)
    (st st' : State) :
  iteration env conf fund st st' ->
  exists added new,
    table st' = table st ++ added /\
    trace st' = trace st ++ new /\
    Forall (loop_event conf [fund]) new /\
    Forall (added_row [fund]) added /\
    inserts_follow_posts None new = true /\
    length added = count is_inserted new /\
    posted_ids new =
      (if is_sent env (length (trace st)) (table st) (ID fund) then []
       else [ID fund]).
Proof.
  assert (Hpost : forall err, loop_event conf [fund] (post_event conf fund err)).
  { intros err. simpl. split; auto. exists fund. simpl. auto. }
  assert (Hcreate : forall err, loop_event conf [fund] (EvCreate (ID fund) err)).
  { intros err. simpl. exists fund. simpl. auto. }
  intros Hit.
  destruct Hit as [Hs | e Hs Hp | e Hs Hp Hc | row Hs Hp Hio Hr Hid Hl];
    rewrite Hs.
  - exists [], []. rewrite !app_nil_r. repeat split; auto.
  - exists [], [post_event conf fund (Some e);
                EvPrintf ("Failed to post webhook: " ++ e)].
    simpl. rewrite app_nil_r. repeat split; auto.
    apply Forall_cons; [apply Hpost|].
    apply Forall_cons; [exact I|]. apply Forall_nil.
  - exists [], [post_event conf fund None; EvCreate (ID fund) (Some e);
                EvPrintf ("Failed to save to database: " ++ e)].
    simpl. rewrite app_nil_r, String.eqb_refl. repeat split; auto.
    apply Forall_cons; [apply Hpost|].
    apply Forall_cons; [apply Hcreate|].
    apply Forall_cons; [exact I|]. apply Forall_nil.
  - exists [row], [post_event conf fund None; EvCreate (ID fund) None].
    simpl. rewrite String.eqb_refl. repeat split; auto.
    apply Forall_cons; [|apply Forall_nil].
    split; auto. exists fund. simpl. auto.
Qed.

Lemma inserts_follow_posts_app (prev : option event) (l block : list event) :
  inserts_follow_posts prev l = true ->
  inserts_follow_posts None block = true ->
  inserts_follow_posts prev (l ++ block) = true.
Proof.
  revert prev; induction l as [|e l IH]; intros prev Hl Hb; simpl in *.
  - destruct block as [|b block]; simpl in *; auto.
    destruct b; simpl in *; auto; discriminate.
  - apply andb_true_iff in Hl. destruct Hl as [He Hl].
    rewrite He. simpl. apply IH; assumption.
Qed.

Lemma notify_loop_grows (env : Env) (conf : Config) (funds : list Fund)
    (st : State) :
  exists added new,
    table (notify_loop env conf funds st) = table st ++ added /\
    trace (notify_loop env conf funds st) = trace st ++ new /\
    Forall (loop_event conf funds) new /\
    Forall (added_row funds) added /\
    inserts_follow_posts None new = true /\
    length added = count is_inserted new.
Proof.
  revert st; induction funds as [|fund rest IH]; intros st.
  - exists [], []. simpl. rewrite !app_nil_r. repeat split; auto.
  - rewrite notify_loop_cons.
    destruct (iteration_grows env conf fund st _
                (loop_body_iteration env conf fund st))
      as (added1 & new1 & Ht1 & Hn1 & He1 & Ha1 & Ho1 & Hc1 & _).
    destruct (IH (loop_body env conf fund st))
      as (added2 & new2 & Ht2 & Hn2 & He2 & Ha2 & Ho2 & Hc2).
    exists (added1 ++ added2), (new1 ++ new2).
    rewrite Ht2, Hn2, Ht1, Hn1, <- !app_assoc.
    repeat split; auto.
    + apply Forall_app. split.
      * eapply Forall_impl; [|exact He1]. intros e.
        apply loop_event_mono. intros x [<-|[]]. left. reflexivity.
      * eapply Forall_impl; [|exact He2]. intros e.
        apply loop_event_mono. intros x Hx. right. exact Hx.
    + apply Forall_app. split.
      * eapply Forall_impl; [|exact Ha1]. intros r.
        apply added_row_mono. intros x [<-|[]]. left. reflexivity.
      * eapply Forall_impl; [|exact Ha2]. intros r.
        apply added_row_mono. intros x Hx. right. exact Hx.
    + apply inserts_follow_posts_app; assumption.
    + rewrite length_app, count_app. lia.
Qed.

(** ** The currency label *)

(** C3. [Currency] depends on the fund only through [CurrencyID]; it is
    the yen label for "1", the US dollar label for "2", the Australian
    dollar label for "3" and the "unknown" label for every other string,
    among them "9", the empty string and "abc". *)
Theorem Currency_label (f : Fund) :
  (CurrencyID f = "1" -> Currency f = "日本円") /\
  (CurrencyID f = "2" -> Currency f = "USドル") /\
  (CurrencyID f = "3" -> Currency f = "AUドル") /\
  (CurrencyID f <> "1" -> CurrencyID f <> "2" -> CurrencyID f <> "3" ->
   Currency f = "不明") /\
  (CurrencyID f = "9" \/ CurrencyID f = "" \/ CurrencyID f = "abc" ->
   Currency f = "不明") /\
  (forall g : Fund, CurrencyID g = CurrencyID f -> Currency g = Currency f).
Proof.
  unfold Currency. repeat split.
  - intros ->. reflexivity.
  - intros ->. reflexivity.
  - intros ->. reflexivity.
  - intros H1 H2 H3.
    apply String.eqb_neq in H1, H2, H3. rewrite H1, H2, H3. reflexivity.
  - intros [-> | [-> | ->]]; reflexivity.
  - intros g ->. reflexivity.
Qed.

Lemma Currency_label_witness :
  Currency Sample.fundA = "日本円" /\
  Currency Sample.fundB = "AUドル" /\
  Currency Sample.fundNoID = "不明".
Proof.
  split; [|split].
  - apply (proj1 (Currency_label Sample.fundA)). reflexivity.
  - apply (proj1 (proj2 (proj2 (Currency_label Sample.fundB)))). reflexivity.
  - apply (proj1 (proj2 (proj2 (proj2 (proj2 (Currency_label Sample.fundNoID)))))).
    left. reflexivity.
Defined.

(** ** The existence test *)

(** C9, as the claim states it, fails in three ways.  A table whose only
    row for "F1" is soft-deleted has a record for "F1", yet the test says
    not sent.  A table with a row for the empty identifier has a record
    for it, yet the test says not sent.  And when the query fails in the
    store, the test says not sent for "F1" although the table holds a row
    for it that is not soft-deleted. *)
Lemma existence_test_counterexample :
  (has_record [Sample.row 1 (Some 1695000000%Z) "F1"] "F1" = true /\
   is_sent (Sample.healthy []) 0 [Sample.row 1 (Some 1695000000%Z) "F1"] "F1"
     = false) /\
  (has_record [Sample.row 1 None ""] "" = true /\
   is_sent (Sample.healthy []) 0 [Sample.row 1 None ""] "" = false) /\
  (has_record [Sample.row 1 None "F1"] "F1" = true /\
   is_sent (Sample.with_query Sample.locked (Sample.healthy [])) 0
           [Sample.row 1 None "F1"] "F1" = false).
Proof. repeat split; reflexivity. Qed.

(** C9, amended.  For an identifier other than the empty string, and a
    query that does not fail in the store, the test of the loop is true
    exactly when the table holds a row with that identifier that is not
    soft-deleted. *)
Theorem is_sent_iff_live_record (env : Env) (at_ : nat) (rows : list SendList)
    (fundID : string) :
  fundID <> "" ->
  First_error env at_ fundID = None ->
  (is_sent env at_ rows fundID = true <->
   exists r, In r rows /\ FundID r = fundID /\
             gorm.DeletedAt (Model r) = None).
Proof.
  intros Hne Hq. rewrite (is_sent_ran _ _ _ _ Hq).
  rewrite already_sent_live by assumption.
  apply has_live_record_true.
Qed.

Lemma is_sent_iff_live_record_witness :
  is_sent (Sample.healthy []) 2
          [Sample.row 1 (Some 1695000000%Z) "F1"; Sample.row 2 None "F1"] "F1"
    = true <->
  exists r, In r [Sample.row 1 (Some 1695000000%Z) "F1"; Sample.row 2 None "F1"] /\
            FundID r = "F1" /\ gorm.DeletedAt (Model r) = None.
Proof.
  apply (is_sent_iff_live_record (Sample.healthy []) 2
           [Sample.row 1 (Some 1695000000%Z) "F1"; Sample.row 2 None "F1"] "F1").
  - discriminate.
  - reflexivity.
Defined.

(** ** The message *)

(** C8. A fund that fails the existence test is posted, to the
    configured URL, with this message: the name as text and one
    attachment made of subtitle, base URL followed by the relative URL,
    description, markdown in "text", and the seven short fields in order:
    region, project, opening day, closing day, the rate followed by a
    percent sign, the raise method, and the currency, whose value is the
    yen label for code "1", the US dollar label for "2", the Australian
    dollar label for "3" and the "unknown" label for any other code. *)
Theorem posted_message (env : Env) (conf : Config) (fund : Fund) (st : State) :
  is_sent env (length (trace st)) (table st) (ID fund) = false ->
  exists msg err rest a currency,
    trace (loop_body env conf fund st) =
      trace st ++ EvPostWebhook (ID fund) (SlackWebhookURL conf) msg err :: rest /\
    slack.WebhookMessage.Text msg = Name fund /\
    slack.WebhookMessage.Attachments msg = [a] /\
    slack.Attachment.Title a = SubTitle fund /\
    slack.Attachment.TitleLink a = ("https://crowdbank.jp" ++ Url fund)%string /\
    slack.Attachment.Text a = Description fund /\
    slack.Attachment.MarkdownIn a = ["text"] /\
    length (slack.Attachment.Fields a) = 7 /\
    slack.Attachment.Fields a =
      [ slack.AttachmentField.mk "地域" (RegionName fund) true;
        slack.AttachmentField.mk "プロジェクト" (ProjectName fund) true;
        slack.AttachmentField.mk "募集開始日" (OpenTime fund) true;
        slack.AttachmentField.mk "募集終了日" (CloseTime fund) true;
        slack.AttachmentField.mk "利率" (Rate fund ++ "%")%string true;
        slack.AttachmentField.mk "募集方法" (RaiseMethod fund) true;
        slack.AttachmentField.mk "通貨" currency true ] /\
    (CurrencyID fund = "1" -> currency = "日本円") /\
    (CurrencyID fund = "2" -> currency = "USドル") /\
    (CurrencyID fund = "3" -> currency = "AUドル") /\
    (CurrencyID fund <> "1" -> CurrencyID fund <> "2" ->
     CurrencyID fund <> "3" -> currency = "不明").
Proof.
  intros Hnew.
  assert (Hcur :
    (CurrencyID fund = "1" -> Currency fund = "日本円") /\
    (CurrencyID fund = "2" -> Currency fund = "USドル") /\
    (CurrencyID fund = "3" -> Currency fund = "AUドル") /\
    (CurrencyID fund <> "1" -> CurrencyID fund <> "2" ->
     CurrencyID fund <> "3" -> Currency fund = "不明")).
  { unfold Currency. repeat split.
    - intros ->. reflexivity.
    - intros ->. reflexivity.
    - intros ->. reflexivity.
    - intros H1 H2 H3. apply String.eqb_neq in H1, H2, H3.
      rewrite H1, H2, H3. reflexivity. }
  pose proof (loop_body_iteration env conf fund st) as Hit.
  inversion Hit as [Hs | e Hs Hp Heq | e Hs Hp Hc Heq | row Hs Hp Hio Hr Hid Hl Heq];
    try congruence;
    unfold post_event; simpl;
    eexists _, _, _, _, (Currency fund); (split; [reflexivity|]);
    repeat (split; [reflexivity|]); exact Hcur.
Qed.

Lemma posted_message_witness :
  exists msg err rest a,
    trace (loop_body (Sample.healthy [Sample.fundA]) Sample.conf Sample.fundA
                     (mkState [] [])) =
      [] ++ EvPostWebhook "F1" (SlackWebhookURL Sample.conf) msg err :: rest /\
    slack.WebhookMessage.Text msg = "Fund A" /\
    slack.WebhookMessage.Attachments msg = [a] /\
    slack.Attachment.Title a = "Harbour loan" /\
    slack.Attachment.TitleLink a = "https://crowdbank.jp/funds/F1" /\
    slack.Attachment.Text a = "Short term loan" /\
    slack.Attachment.MarkdownIn a = ["text"] /\
    slack.Attachment.Fields a =
      [ slack.AttachmentField.mk "地域" "Kanto" true;
        slack.AttachmentField.mk "プロジェクト" "Real estate" true;
        slack.AttachmentField.mk "募集開始日" "2023-04-01 10:00" true;
        slack.AttachmentField.mk "募集終了日" "2023-04-30 23:59" true;
        slack.AttachmentField.mk "利率" "5.2%" true;
        slack.AttachmentField.mk "募集方法" "lottery" true;
        slack.AttachmentField.mk "通貨" "日本円" true ].
Proof.
  destruct (posted_message (Sample.healthy [Sample.fundA]) Sample.conf
              Sample.fundA (mkState [] []) eq_refl)
    as (msg & err & rest & a & currency & Htr & Ht & Ha & Hti & Hl & Hd & Hm
        & _ & Hf & H1 & _).
  exists msg, err, rest, a.
  rewrite Hf, (H1 eq_refl).
  repeat split; assumption.
Defined.

(** ** The funding cap and the limit time are not used *)

Lemma same_but_limits_message (f g : Fund) :
  same_but_limits f g -> webhook_message f = webhook_message g.
Proof.
  unfold same_but_limits, webhook_message, Currency.
  intros (H1 & H2 & H3 & H4 & H5 & H6 & H7 & H8 & H9 & H10 & H11 & H12).
  rewrite H2, H3, H4, H5, H6, H7, H8, H9, H10, H11, H12. reflexivity.
Qed.

Lemma same_but_limits_body (env : Env) (conf : Config) (f g : Fund) (st : State) :
  same_but_limits f g -> loop_body env conf f st = loop_body env conf g st.
Proof.
  intros H. unfold loop_body.
  rewrite (same_but_limits_message f g H).
  destruct H as [Hid _]. rewrite Hid. reflexivity.
Qed.

(** C10. For two funds that differ only in the funding cap and the limit
    time, in the same world and the same state, the message is the same
    and the iteration ends in the same state: same rows, same events.
    The same holds for two lists of such funds. *)
Theorem limits_do_not_matter (env : Env) (conf : Config) (f g : Fund)
    (st : State) :
  same_but_limits f g ->
  webhook_message f = webhook_message g /\
  loop_body env conf f st = loop_body env conf g st /\
  (forall fs gs : list Fund,
     Forall2 same_but_limits fs gs ->
     notify_loop env conf (f :: fs) st = notify_loop env conf (g :: gs) st).
Proof.
  intros H. split; [|split].
  - apply same_but_limits_message; assumption.
  - apply same_but_limits_body; assumption.
  - intros fs gs Hall. rewrite !notify_loop_cons.
    rewrite (same_but_limits_body env conf f g st H).
    generalize (loop_body env conf g st) as st0.
    induction Hall as [|f' g' fs' gs' Hfg _ IH]; intros st0.
    + reflexivity.
    + rewrite !notify_loop_cons.
      rewrite (same_but_limits_body env conf f' g' st0 Hfg). apply IH.
Qed.

Lemma limits_do_not_matter_witness :
  let g := mkFund "F1" "Fund A" "Harbour loan" 1 "5.2" "Short term loan"
             "/funds/F1" "Kanto" "Real estate" "2023-04-01 10:00"
             "2023-04-30 23:59" "never" "lottery" "1" in
  let env := Sample.healthy [Sample.fundA] in
  same_but_limits Sample.fundA g /\
  (webhook_message Sample.fundA = webhook_message g /\
   loop_body env Sample.conf Sample.fundA (mkState [] []) =
     loop_body env Sample.conf g (mkState [] []) /\
   (forall fs gs : list Fund,
      Forall2 same_but_limits fs gs ->
      notify_loop env Sample.conf (Sample.fundA :: fs) (mkState [] []) =
      notify_loop env Sample.conf (g :: gs) (mkState [] []))).
Proof.
  intros g env.
  assert (H : same_but_limits Sample.fundA g)
    by (unfold same_but_limits; simpl; repeat split; reflexivity).
  split; [exact H|].
  apply (limits_do_not_matter env Sample.conf Sample.fundA g (mkState [] []) H).
Defined.

(** ** A failed post *)



(** ** Funds that are recorded *)

Section Recorded.

Variables (env : Env) (conf : Config).

(** An iteration never removes what the existence test found, and, when
    its query for the identifier does not fail, posts nothing under an
    identifier the test accepts. *)
Lemma iteration_sent_stays (fund : Fund) (st st' : State) (fundID : string) :
  iteration env conf fund st st' ->
  already_sent (table st) fundID = true ->
  already_sent (table st') fundID = true /\
  (failed_query_for fundID
     (ID fund, First_error env (length (trace st)) (ID fund)) = false ->
   count (is_post_for fundID) (trace st') =
   count (is_post_for fundID) (trace st)).
Proof.
  intros Hit Hsent.
  assert (Hother :
    is_sent env (length (trace st)) (table st) (ID fund) = false ->
    failed_query_for fundID
      (ID fund, First_error env (length (trace st)) (ID fund)) = false ->
    (ID fund =? fundID) = false).
  { intros Hnew Hq. unfold failed_query_for, failed_query in Hq. simpl in Hq.
    destruct (String.eqb_spec (ID fund) fundID) as [Heq|Hneq]; auto.
    simpl in Hq.
    destruct (First_error env (length (trace st)) (ID fund)) eqn:Hf;
      [discriminate|].
    rewrite (is_sent_ran _ _ _ _ Hf), Heq in Hnew. congruence. }
  destruct Hit as [Hs | e Hs Hp | e Hs Hp Hc | row Hs Hp Hio Hr Hid Hl].
  - auto.
  - simpl. split; auto. intros Hq. unfold post_event. count_events.
    rewrite (Hother Hs Hq). simpl. lia.
  - simpl. split; auto. intros Hq. unfold post_event. count_events.
    rewrite (Hother Hs Hq). simpl. lia.
  - simpl. split.
    + apply already_sent_true in Hsent. apply already_sent_true.
      destruct Hsent as [Hne Hl']. split; auto.
      rewrite has_live_record_app, Hl'. reflexivity.
    + intros Hq. unfold post_event. count_events.
      rewrite (Hother Hs Hq). simpl. lia.
Qed.

Lemma notify_loop_sent_stays (funds : list Fund) (st : State)
    (fundID : string) :
  already_sent (table st) fundID = true ->
  already_sent (table (notify_loop env conf funds st)) fundID = true /\
  (existsb (failed_query_for fundID) (loop_queries env conf funds st) = false ->
   count (is_post_for fundID) (trace (notify_loop env conf funds st)) =
   count (is_post_for fundID) (trace st)).
Proof.
  revert st; induction funds as [|fund rest IH]; intros st Hsent.
  - auto.
  - rewrite notify_loop_cons.
    destruct (iteration_sent_stays fund st _ fundID
                (loop_body_iteration env conf fund st) Hsent) as [Hs Hc].
    destruct (IH _ Hs) as [Hs' Hc']. split; auto.
    simpl. intros Hq. apply orb_false_iff in Hq. destruct Hq as [Hq1 Hq2].
    rewrite (Hc' Hq2). apply Hc. exact Hq1.
Qed.

End Recorded.

(** C2, as the claim states it, fails in three ways.  With a
    soft-deleted row for "F1" in the table the loop posts fund "F1" and
    logs; with a row for the empty identifier in the table the loop posts
    the fund whose identifier is empty; and with a row for "F1" that is
    not soft-deleted, the loop still posts fund "F1" when the query fails
    in the store. *)
Lemma recorded_fund_counterexample :
  (has_record [Sample.row 1 (Some 1695000000%Z) "F1"] "F1" = true /\
   trace (loop_body (Sample.healthy [Sample.fundA]) Sample.conf Sample.fundA
            (mkState [Sample.row 1 (Some 1695000000%Z) "F1"] [])) =
     [ EvPostWebhook "F1" (SlackWebhookURL Sample.conf)
                     (webhook_message Sample.fundA) None;
       EvCreate "F1" (Some unique_violation);
       EvPrintf ("Failed to save to database: " ++ unique_violation) ]) /\
  (has_record [Sample.row 1 None ""] "" = true /\
   trace (loop_body (Sample.healthy [Sample.fundNoID]) Sample.conf
            Sample.fundNoID (mkState [Sample.row 1 None ""] [])) =
     [ EvPostWebhook "" (SlackWebhookURL Sample.conf)
                     (webhook_message Sample.fundNoID) None;
       EvCreate "" (Some unique_violation);
       EvPrintf ("Failed to save to database: " ++ unique_violation) ]) /\
  (has_record [Sample.row 1 None "F1"] "F1" = true /\
   trace (loop_body (Sample.with_query Sample.locked
                       (Sample.healthy [Sample.fundA]))
            Sample.conf Sample.fundA (mkState [Sample.row 1 None "F1"] [])) =
     [ EvPostWebhook "F1" (SlackWebhookURL Sample.conf)
                     (webhook_message Sample.fundA) None;
       EvCreate "F1" (Some unique_violation);
       EvPrintf ("Failed to save to database: " ++ unique_violation) ]).
Proof. repeat split; reflexivity. Qed.

(** C2, amended.  Take a fund whose identifier is not the empty string
    and has a row that is not soft-deleted.  If the query of its
    iteration does not fail in the store, the fund is skipped: the
    iteration leaves the state as it is (no post, no insert, no log
    line), and the loop goes on, so that over the fund and a next one it
    ends where the iteration of the next one ends.  And a whole run of
    the loop from such a table, over any list, posts nothing under that
    identifier, provided none of the queries it makes for that identifier
    fails. *)
Theorem recorded_fund_is_skipped (env : Env) (conf : Config) (fund : Fund)
    (st : State) :
  ID fund <> "" ->
  has_live_record (table st) (ID fund) = true ->
  (First_error env (length (trace st)) (ID fund) = None ->
   loop_body env conf fund st = st /\
   notify_loop env conf [fund] st = st /\
   (forall next : Fund,
      notify_loop env conf [fund; next] st = loop_body env conf next st) /\
   (forall rest : list Fund,
      notify_loop env conf (fund :: rest) st = notify_loop env conf rest st)) /\
  (forall funds : list Fund,
     existsb (failed_query_for (ID fund)) (loop_queries env conf funds st)
       = false ->
     count (is_post_for (ID fund)) (trace (notify_loop env conf funds st)) =
     count (is_post_for (ID fund)) (trace st)).
Proof.
  intros Hne Hlive.
  assert (Hsent : already_sent (table st) (ID fund) = true)
    by (apply already_sent_true; auto).
  split.
  - intros Hq.
    assert (Hbody : loop_body env conf fund st = st).
    { unfold loop_body. rewrite (is_sent_ran _ _ _ _ Hq), Hsent.
      reflexivity. }
    split; [exact Hbody|]. split; [|split].
    + unfold notify_loop. simpl. exact Hbody.
    + intros next. unfold notify_loop. simpl. rewrite Hbody. reflexivity.
    + intros rest. rewrite notify_loop_cons, Hbody. reflexivity.
  - intros funds Hq.
    apply (notify_loop_sent_stays env conf funds st (ID fund) Hsent).
    exact Hq.
Qed.

Lemma recorded_fund_is_skipped_witness :
  let env := Sample.healthy [Sample.fundA; Sample.fundB] in
  let st := mkState [Sample.row 1 None "F1"] [] in
  loop_body env Sample.conf Sample.fundA st = st /\
  notify_loop env Sample.conf [Sample.fundA; Sample.fundB] st =
    loop_body env Sample.conf Sample.fundB st /\
  count (is_post_for "F1")
        (trace (notify_loop env Sample.conf [Sample.fundB; Sample.fundA] st)) = 0.
Proof.
  intros env st.
  destruct (recorded_fund_is_skipped env Sample.conf Sample.fundA st)
    as (Hskip & Hc).
  - discriminate.
  - reflexivity.
  - destruct (Hskip eq_refl) as (Hb & _ & Hnext & _).
    split; [exact Hb|]. split; [exact (Hnext Sample.fundB)|].
    exact (Hc [Sample.fundB; Sample.fundA] eq_refl).
Defined.

(** ** Counting the posts and the inserts of one run of the loop *)

Section Counts.

Variables (env : Env) (conf : Config).

Lemma iteration_posts (fund : Fund) (st st' : State) :
  iteration env conf fund st st' ->
  count is_post (trace st') =
  count is_post (trace st) +
  (if is_sent env (length (trace st)) (table st) (ID fund) then 0 else 1).
Proof.
  intros Hit.
  destruct Hit as [Hs | e Hs Hp | e Hs Hp Hc | row Hs Hp Hio Hr Hid Hl];
    rewrite Hs; simpl; unfold post_event; count_events; lia.
Qed.

Lemma iteration_other_record (fund : Fund) (st st' : State)
    (fundID : string) :
  iteration env conf fund st st' ->
  fundID <> ID fund ->
  has_live_record (table st') fundID = has_live_record (table st) fundID.
Proof.
  intros Hit Hne.
  destruct Hit as [Hs | e Hs Hp | e Hs Hp Hc | row Hs Hp Hio Hr Hid Hl];
    simpl; auto.
  rewrite has_live_record_app. unfold has_live_record at 2. simpl.
  unfold selected. rewrite Hid.
  assert (Hf : (ID fund =? fundID) = false)
    by (apply String.eqb_neq; congruence).
  rewrite Hf. simpl. apply orb_false_r.
Qed.

(** Each delivered post is followed by one insert under the same
    identifier, and there is no insert otherwise. *)
Lemma iteration_creates (fund : Fund) (st st' : State) (fundID : string) :
  iteration env conf fund st st' ->
  count (is_create_for fundID) (trace st') +
    count (is_delivered_for fundID) (trace st) =
  count (is_delivered_for fundID) (trace st') +
    count (is_create_for fundID) (trace st).
Proof.
  intros Hit.
  destruct Hit as [Hs | e Hs Hp | e Hs Hp Hc | row Hs Hp Hio Hr Hid Hl];
    simpl; unfold post_event; count_events;
    try destruct (ID fund =? fundID); simpl; lia.
Qed.

Lemma notify_loop_creates (funds : list Fund) (st : State)
    (fundID : string) :
  count (is_create_for fundID) (trace (notify_loop env conf funds st)) +
    count (is_delivered_for fundID) (trace st) =
  count (is_delivered_for fundID) (trace (notify_loop env conf funds st)) +
    count (is_create_for fundID) (trace st).
Proof.
  revert st; induction funds as [|fund rest IH]; intros st.
  - simpl. lia.
  - rewrite notify_loop_cons.
    pose proof (iteration_creates fund st _ fundID
                  (loop_body_iteration env conf fund st)) as H1.
    pose proof (IH (loop_body env conf fund st)) as H2. lia.
Qed.

Lemma notify_loop_posts (funds : list Fund) (st : State) :
  NoDup (map ID funds) ->
  Forall (fun fund => ID fund <> "") funds ->
  existsb failed_query (loop_queries env conf funds st) = false ->
  count is_post (trace (notify_loop env conf funds st)) =
  count is_post (trace st) + length (filter (is_new (table st)) funds).
Proof.
  revert st; induction funds as [|fund rest IH]; intros st Hnd Hne Hq.
  - simpl. lia.
  - rewrite notify_loop_cons.
    inversion Hnd as [|x l Hnotin Hnd' [Hx Hl]]; subst.
    inversion Hne as [|x l Hfund Hne' [Hx Hl]]; subst.
    simpl in Hq. apply orb_false_iff in Hq. destruct Hq as [Hq1 Hq2].
    unfold failed_query in Hq1. simpl in Hq1.
    destruct (First_error env (length (trace st)) (ID fund)) eqn:Hf;
      [discriminate|].
    pose proof (loop_body_iteration env conf fund st) as Hit.
    rewrite (IH _ Hnd' Hne' Hq2), (iteration_posts _ _ _ Hit).
    rewrite (is_sent_ran _ _ _ _ Hf).
    rewrite already_sent_live by assumption.
    assert (Hsame : filter (is_new (table (loop_body env conf fund st))) rest =
                    filter (is_new (table st)) rest).
    { apply filter_ext_in. intros g Hg. unfold is_new. f_equal.
      apply (iteration_other_record fund st _ (ID g) Hit).
      intros Heq. apply Hnotin. rewrite <- Heq. apply in_map. exact Hg. }
    rewrite Hsame. cbn [filter].
    change (is_new (table st) fund)
      with (negb (has_live_record (table st) (ID fund))).
    destruct (has_live_record (table st) (ID fund)); cbn [negb length]; lia.
Qed.

Lemma loop_body_create_failed (fund : Fund) (st : State) (e : string) :
  is_sent env (length (trace st)) (table st) (ID fund) = false ->
  post_answer env conf fund st = None ->
  fst (db_Create env (S (length (trace st))) (table st) (ID fund)) = Some e ->
  loop_body env conf fund st =
  mkState (table st)
    (trace st ++ [ post_event conf fund None;
                   EvCreate (ID fund) (Some e);
                   EvPrintf ("Failed to save to database: " ++ e) ]).
Proof.
  unfold post_answer, post_event. intros Hs Hp Hc.
  unfold loop_body. rewrite Hs. cbv zeta. rewrite Hp.
  unfold emit. simpl. rewrite length_app. simpl. rewrite Nat.add_1_r.
  revert Hc. unfold db_Create.
  destruct (Create_io_error env (S (length (trace st))) (ID fund)) as [e'|].
  - simpl. intros [= ->]. rewrite <- !app_assoc. reflexivity.
  - destruct (has_record (table st) (ID fund)); simpl.
    + intros [= <-]. rewrite <- !app_assoc. reflexivity.
    + discriminate.
Qed.

End Counts.

(** C5, as the claim states it, fails in four ways.  A list that names
    "F1" twice, on an empty table, has two funds without a record and
    gets one post; a table with a soft-deleted row for "F1" leaves no fund
    of the list [F1] without a record and the loop posts once; the same
    with the empty identifier and a row for it; and the same with a row
    for "F1" that is not soft-deleted, when the query fails in the
    store. *)
Lemma loop_counts_counterexample :
  (length (filter (fun fund => negb (has_record [] (ID fund)))
                  [Sample.fundA; Sample.fundA]) = 2 /\
   count is_post
     (trace (notify_loop (Sample.healthy [Sample.fundA; Sample.fundA])
               Sample.conf [Sample.fundA; Sample.fundA] (mkState [] []))) = 1) /\
  (length (filter (fun fund =>
                     negb (has_record [Sample.row 1 (Some 1695000000%Z) "F1"]
                                      (ID fund)))
                  [Sample.fundA]) = 0 /\
   count is_post
     (trace (notify_loop (Sample.healthy [Sample.fundA]) Sample.conf
               [Sample.fundA]
               (mkState [Sample.row 1 (Some 1695000000%Z) "F1"] []))) = 1) /\
  (length (filter (fun fund => negb (has_record [Sample.row 1 None ""] (ID fund)))
                  [Sample.fundNoID]) = 0 /\
   count is_post
     (trace (notify_loop (Sample.healthy [Sample.fundNoID]) Sample.conf
               [Sample.fundNoID] (mkState [Sample.row 1 None ""] []))) = 1) /\
  (length (filter (fun fund => negb (has_record [Sample.row 1 None "F1"] (ID fund)))
                  [Sample.fundA]) = 0 /\
   count is_post
     (trace (notify_loop (Sample.with_query Sample.locked
                            (Sample.healthy [Sample.fundA]))
               Sample.conf [Sample.fundA]
               (mkState [Sample.row 1 None "F1"] []))) = 1).
Proof. repeat split; reflexivity. Qed.

(** C5, amended.  For a list of funds with pairwise distinct identifiers,
    none empty, of which M have no row that is not soft-deleted when the
    loop starts, the loop attempts exactly M posts, provided none of the
    queries it makes fails in the store.  Whatever the list and the
    world, for every identifier the loop attempts as many inserts as
    posts were delivered under it; and an insert that fails is logged and
    the loop goes on: the events of the iteration are the post, the
    failed insert and the log line of its error, the rows are unchanged,
    and the loop continues from there with the funds that follow. *)
Theorem loop_counts (env : Env) (conf : Config) (funds : list Fund)
    (st : State) :
  let st' := notify_loop env conf funds st in
  (NoDup (map ID funds) ->
   Forall (fun fund => ID fund <> "") funds ->
   existsb failed_query (loop_queries env conf funds st) = false ->
   count is_post (trace st') =
     count is_post (trace st) +
     length (filter (fun fund => negb (has_live_record (table st) (ID fund)))
                    funds)) /\
  (forall fundID : string,
     count (is_create_for fundID) (trace st') +
       count (is_delivered_for fundID) (trace st) =
     count (is_delivered_for fundID) (trace st') +
       count (is_create_for fundID) (trace st)) /\
  (forall (before after : list Fund) (fund : Fund) (e : string),
     funds = before ++ fund :: after ->
     let st1 := notify_loop env conf before st in
     let st2 :=
       mkState (table st1)
         (trace st1 ++
            [ EvPostWebhook (ID fund) (SlackWebhookURL conf)
                            (webhook_message fund) None;
              EvCreate (ID fund) (Some e);
              EvPrintf ("Failed to save to database: " ++ e) ]) in
     is_sent env (length (trace st1)) (table st1) (ID fund) = false ->
     slack_PostWebhook env (length (trace st1)) (SlackWebhookURL conf)
                       (webhook_message fund) = None ->
     fst (db_Create env (S (length (trace st1))) (table st1) (ID fund)) = Some e ->
     loop_body env conf fund st1 = st2 /\
     st' = notify_loop env conf after st2 /\
     (after = [] -> st' = st2) /\
     (forall next later, after = next :: later ->
        st' = notify_loop env conf later (loop_body env conf next st2)) /\
     exists added new,
       table st' = table st1 ++ added /\ trace st' = trace st2 ++ new).
Proof.
  intros st'. split; [|split].
  - apply notify_loop_posts.
  - intros fundID. apply notify_loop_creates.
  - intros before after fund e -> st1 st2 Hs Hp Hc.
    assert (Hbody : loop_body env conf fund st1 = st2)
      by (apply (loop_body_create_failed env conf fund st1 e Hs Hp Hc)).
    assert (Hst : st' = notify_loop env conf after st2).
    { subst st'. unfold notify_loop at 1. rewrite fold_left_app.
      fold (notify_loop env conf before st). fold st1.
      fold (notify_loop env conf (fund :: after) st1).
      rewrite notify_loop_cons, Hbody. reflexivity. }
    split; [exact Hbody|]. split; [exact Hst|]. split; [|split].
    + intros ->. exact Hst.
    + intros next later ->. rewrite Hst. apply notify_loop_cons.
    + rewrite Hst.
      destruct (notify_loop_grows env conf after st2)
        as (added & new & Ht & Hn & _).
      exists added, new. split; assumption.
Qed.

Lemma loop_counts_witness :
  let env := Sample.world None
               (Ok (mkHttpResponse 200
                      (Ok (Sample.response [Sample.fundA; Sample.fundB]))))
               Sample.accepts Sample.disk_full in
  let st' := notify_loop env Sample.conf [Sample.fundA; Sample.fundB]
               (mkState [Sample.row 1 None "F1"] []) in
  count is_post (trace st') = 1 /\
  count (is_create_for "F2") (trace st') =
    count (is_delivered_for "F2") (trace st') /\
  st' = mkState [Sample.row 1 None "F1"]
          [ EvPostWebhook "F2" (SlackWebhookURL Sample.conf)
                          (webhook_message Sample.fundB) None;
            EvCreate "F2" (Some "database or disk is full");
            EvPrintf "Failed to save to database: database or disk is full" ].
Proof.
  intros env st'.
  assert (Hnd : NoDup (map ID [Sample.fundA; Sample.fundB])).
  { simpl. constructor.
    - simpl. intros [H|[]]. discriminate H.
    - constructor; [intros []|constructor]. }
  assert (Hne : Forall (fun fund => ID fund <> "") [Sample.fundA; Sample.fundB]).
  { constructor; [discriminate|]. constructor; [discriminate|constructor]. }
  destruct (loop_counts env Sample.conf [Sample.fundA; Sample.fundB]
              (mkState [Sample.row 1 None "F1"] []))
    as (Hp & Hc & Hf).
  split; [exact (Hp Hnd Hne eq_refl)|]. split.
  - pose proof (Hc "F2") as H. cbn [trace] in H.
    rewrite !count_nil, !Nat.add_0_r in H. exact H.
  - destruct (Hf [Sample.fundA] [] Sample.fundB "database or disk is full"
                eq_refl eq_refl eq_refl eq_refl) as (_ & _ & Hlast & _).
    exact (Hlast eq_refl).
Defined.

(** ** The shape of a run of [main] *)

Lemma run_shape_holds (env : Env) (confPath : string) (rows : list SendList) :
  run_shape env confPath rows (run env confPath rows).
Proof.
  unfold run, main, bind, value_or_fatal, fatal_if, do_event, log_Fatalf, ret,
    emit.
  destruct (Load env confPath) as [conf|e] eqn:Hload; simpl.
  2: { apply rs_load; assumption. }
  destruct (gorm_Open env (Database conf)) as [e|] eqn:Hopen; simpl.
  { apply (rs_open env confPath rows conf); assumption. }
  destruct (http_NewRequest env "GET" CrowdBankSearchURL) as [e|] eqn:Hreq;
    simpl.
  { apply (rs_request env confPath rows conf); assumption. }
  destruct (http_Do env CrowdBankSearchURL (UserAgent conf)) as [resp|e] eqn:Hdo;
    simpl.
  2: { apply (rs_do env confPath rows conf); assumption. }
  destruct (Body resp) as [response|e] eqn:Hbody; simpl.
  2: { apply (rs_decode env confPath rows conf resp); assumption. }
  apply (rs_loop env confPath rows conf resp response); assumption.
Qed.

(** ** Failures of the fetch *)

(** C7, as the claim states it, fails for a response whose status is
    not 2xx and whose body decodes.  A 503 with a JSON body that has no
    [data] decodes to the zero [Response]: the run ends with status 0 and
    no fatal log.  A 500 whose body lists fund "F1" is processed like any
    other: the fund is posted and recorded. *)
Lemma non_2xx_counterexample :
  run (Sample.world None
         (Ok (mkHttpResponse 503 (Ok (mkResponse (mkData 0 0 [])))))
         Sample.accepts Sample.writes) "config.yaml" [] =
    (0%Z, [],
     [EvAutoMigrate None; EvGet CrowdBankSearchURL "cbcheck/1.0"]) /\
  run (Sample.world None
         (Ok (mkHttpResponse 500 (Ok (Sample.response [Sample.fundA]))))
         Sample.accepts Sample.writes) "config.yaml" [] =
    (0%Z,
     [mkSendList (gorm.mkModel 1 1700000000 1700000000 None) "F1"],
     [EvAutoMigrate None; EvGet CrowdBankSearchURL "cbcheck/1.0";
      EvPostWebhook "F1" (SlackWebhookURL Sample.conf)
                    (webhook_message Sample.fundA) None;
      EvCreate "F1" None]).
Proof. split; reflexivity. Qed.

(** C7, amended.  When the request that the run makes fails, because
    the HTTP client returns an error or because the body of the response
    fails to decode, the run ends with status 1 in a fatal log line, the
    rows untouched, no post and no insert before it.  The status code of
    the response is not read: changing it changes nothing in the run. *)
Theorem fetch_failure_is_fatal (env : Env) (confPath : string)
    (rows : list SendList) :
  ((forall conf : Config,
      Load env confPath = Ok conf ->
      gorm_Open env (Database conf) = None ->
      http_NewRequest env "GET" CrowdBankSearchURL = None ->
      fetch_failed (http_Do env CrowdBankSearchURL (UserAgent conf))) ->
   exists pre line,
     run env confPath rows = (1%Z, rows, pre ++ [EvFatalf line]) /\
     count is_post pre = 0 /\ count is_create pre = 0 /\
     count is_fatal pre = 0) /\
  (forall code : Z,
     run (with_status code env) confPath rows = run env confPath rows).
Proof.
  split.
  - intros Hfail.
    destruct (run_shape_holds env confPath rows)
      as [e Hl | conf e Hl Ho | conf e Hl Ho Hr | conf e Hl Ho Hr Hd
          | conf resp e Hl Ho Hr Hd Hb | conf resp response Hl Ho Hr Hd Hb].
    + exists []. eexists. repeat split; reflexivity.
    + exists []. eexists. repeat split; reflexivity.
    + exists [EvAutoMigrate (AutoMigrate_error env)]. eexists.
      repeat split; reflexivity.
    + exists [EvAutoMigrate (AutoMigrate_error env);
              EvGet CrowdBankSearchURL (UserAgent conf)]. eexists.
      repeat split; reflexivity.
    + exists [EvAutoMigrate (AutoMigrate_error env);
              EvGet CrowdBankSearchURL (UserAgent conf)]. eexists.
      repeat split; reflexivity.
    + specialize (Hfail conf Hl Ho Hr). unfold fetch_failed in Hfail.
      rewrite Hd, Hb in Hfail. destruct Hfail.
  - intros code. unfold run. f_equal.
    unfold main, bind, value_or_fatal, fatal_if, do_event, log_Fatalf, ret,
      emit, Load; simpl.
    destruct (os_Open env confPath); simpl; auto.
    destruct (io_ReadAll env confPath) as [buf|]; simpl; auto.
    destruct (yaml_Unmarshal env buf) as [conf|]; simpl; auto.
    destruct (gorm_Open env (Database conf)); simpl; auto.
    destruct (http_NewRequest env "GET" CrowdBankSearchURL); simpl; auto.
    destruct (http_Do env CrowdBankSearchURL (UserAgent conf)) as [resp|];
      simpl; auto.
Qed.

Lemma fetch_failure_is_fatal_witness :
  let env :=
    mkEnv (fun _ => None) (fun _ => Ok "UserAgent: cbcheck/1.0")
          (fun _ => Ok Sample.conf) (fun _ => None) None (fun _ _ => None)
          (fun _ userAgent =>
             if userAgent =? "cbcheck/1.0"
             then Err "403 rejected user agent: connection reset by peer"
             else Ok (mkHttpResponse 200 (Ok (Sample.response [Sample.fundA]))))
          Sample.accepts Sample.writes (fun _ => 1700000000%Z)
          (fun _ _ => None) in
  exists pre line,
    run env "config.yaml" [Sample.row 1 None "F1"] =
      (1%Z, [Sample.row 1 None "F1"], pre ++ [EvFatalf line]) /\
    count is_post pre = 0 /\ count is_create pre = 0 /\
    count is_fatal pre = 0.
Proof.
  intros env.
  apply (proj1 (fetch_failure_is_fatal env "config.yaml"
                  [Sample.row 1 None "F1"])).
  intros conf Hl _ _. simpl in Hl. injection Hl as <-. exact I.
Defined.

(** ** Failures at start-up *)

(** X14. A failure to open the database is fatal: the run ends with
    status 1 in the fatal log line, with no migration, no request, no
    post. *)
Lemma open_failure_is_fatal (env : Env) (confPath : string)
    (rows : list SendList) (conf : Config) (e : string) :
  Load env confPath = Ok conf ->
  gorm_Open env (Database conf) = Some e ->
  run env confPath rows =
    (1%Z, rows, [EvFatalf ("Failed to open database: " ++ e)]).
Proof.
  intros Hload Hopen.
  unfold run, main, bind, value_or_fatal, fatal_if, log_Fatalf, emit.
  rewrite Hload. simpl. rewrite Hopen. reflexivity.
Qed.

Lemma loop_body_migration (err : option string) (env : Env) (conf : Config)
    (fund : Fund) (rows : list SendList) (events : list event) :
  loop_body (with_migration err env) conf fund
            (mkState rows (map (relabel_migration err) events)) =
  mkState (table (loop_body env conf fund (mkState rows events)))
          (map (relabel_migration err)
               (trace (loop_body env conf fund (mkState rows events)))).
Proof.
  unfold loop_body; simpl. rewrite length_map.
  change (is_sent (with_migration err env) (length events) rows (ID fund))
    with (is_sent env (length events) rows (ID fund)).
  destruct (is_sent env (length events) rows (ID fund)); simpl; [reflexivity|].
  destruct (slack_PostWebhook env (length events) (SlackWebhookURL conf)
              (webhook_message fund)); simpl.
  - rewrite !map_app. reflexivity.
  - unfold db_Create; simpl. rewrite !length_app, length_map.
    match goal with
    | |- context [Create_io_error env ?n (ID fund)] =>
        destruct (Create_io_error env n (ID fund)); simpl
    end.
    + rewrite !map_app. reflexivity.
    + destruct (has_record rows (ID fund)); simpl; rewrite !map_app;
        reflexivity.
Qed.

Lemma notify_loop_migration (err : option string) (env : Env) (conf : Config)
    (funds : list Fund) (rows : list SendList) (events : list event) :
  notify_loop (with_migration err env) conf funds
              (mkState rows (map (relabel_migration err) events)) =
  mkState (table (notify_loop env conf funds (mkState rows events)))
          (map (relabel_migration err)
               (trace (notify_loop env conf funds (mkState rows events)))).
Proof.
  revert rows events; induction funds as [|fund rest IH]; intros rows events.
  - reflexivity.
  - rewrite !notify_loop_cons, loop_body_migration.
    destruct (loop_body env conf fund (mkState rows events)) as [rows' events'].
    apply IH.
Qed.

(** C6. The world where the configuration loads, the database opens,
    [AutoMigrate] returns an error (the file cannot be written, so table
    [send_lists] is missing and every insert fails as well), and the API
    lists fund "F1".  The run does not stop at the migration: it sends the
    request, posts the fund, fails to record it, and ends with status 0
    without any fatal log line. *)
Theorem migrate_failure_is_not_fatal :
  run (Sample.world (Some "attempt to write a readonly database")
         (Ok (mkHttpResponse 200 (Ok (Sample.response [Sample.fundA]))))
         Sample.accepts
         (fun _ _ => Some "no such table: send_lists"))
      "config.yaml" [] =
    (0%Z, [],
     [ EvAutoMigrate (Some "attempt to write a readonly database");
       EvGet CrowdBankSearchURL "cbcheck/1.0";
       EvPostWebhook "F1" (SlackWebhookURL Sample.conf)
                     (webhook_message Sample.fundA) None;
       EvCreate "F1" (Some "no such table: send_lists");
       EvPrintf "Failed to save to database: no such table: send_lists" ]).
Proof. reflexivity. Qed.

(** X15. The error of the migration is never looked at: apart from the
    event that records the call, a run where [AutoMigrate] returns [err]
    is the run of the world it was derived from: same exit status, same
    rows, same requests, posts, inserts and log lines. *)
Lemma migration_error_is_dropped (env : Env) (confPath : string)
    (rows : list SendList) (err : option string) :
  let '(status, rows', events) := run env confPath rows in
  run (with_migration err env) confPath rows =
    (status, rows', map (relabel_migration err) events).
Proof.
  unfold run, main, bind, value_or_fatal, fatal_if, do_event, log_Fatalf, ret,
    emit, Load; simpl.
  destruct (os_Open env confPath); simpl; auto.
  destruct (io_ReadAll env confPath) as [buf|]; simpl; auto.
  destruct (yaml_Unmarshal env buf) as [conf|]; simpl; auto.
  destruct (gorm_Open env (Database conf)); simpl; auto.
  destruct (http_NewRequest env "GET" CrowdBankSearchURL); simpl; auto.
  destruct (http_Do env CrowdBankSearchURL (UserAgent conf)) as [resp|];
    simpl; auto.
  destruct (Body resp) as [response|]; simpl; auto.
  change [EvAutoMigrate err; EvGet CrowdBankSearchURL (UserAgent conf)]
    with (map (relabel_migration err)
              [EvAutoMigrate (AutoMigrate_error env);
               EvGet CrowdBankSearchURL (UserAgent conf)]).
  rewrite notify_loop_migration. reflexivity.
Qed.

(** ** At most one notification per identifier *)

Lemma no_post_no_delivery (events : list event) (fundID : string) :
  count is_post events = 0 -> count (is_delivered_for fundID) events = 0.
Proof.
  unfold count. induction events as [|e events IH]; simpl; auto.
  destruct e as [| | f u m [err|] | | |]; simpl; try discriminate; auto.
Qed.

(** [run] and [loop_entry] agree: a run that does not enter the loop
    ends in a fatal line with the rows untouched and without a post or an
    insert; a run that enters it ends where the loop ends. *)
Lemma run_entry (env : Env) (confPath : string) (rows : list SendList) :
  match loop_entry env confPath rows with
  | Some (conf, funds, st) =>
      run env confPath rows =
        (0%Z, table (notify_loop env conf funds st),
         trace (notify_loop env conf funds st)) /\
      table st = rows /\
      count is_post (trace st) = 0 /\ count is_create (trace st) = 0
  | None =>
      exists pre line,
        run env confPath rows = (1%Z, rows, pre ++ [EvFatalf line]) /\
        count is_post pre = 0 /\ count is_create pre = 0
  end.
Proof.
  unfold loop_entry.
  destruct (run_shape_holds env confPath rows)
    as [e Hl | conf e Hl Ho | conf e Hl Ho Hr | conf e Hl Ho Hr Hd
        | conf resp e Hl Ho Hr Hd Hb | conf resp response Hl Ho Hr Hd Hb].
  - rewrite Hl. exists []. eexists. repeat split; reflexivity.
  - rewrite Hl, Ho. exists []. eexists. repeat split; reflexivity.
  - rewrite Hl, Ho, Hr. exists [EvAutoMigrate (AutoMigrate_error env)].
    eexists. repeat split; reflexivity.
  - rewrite Hl, Ho, Hr, Hd.
    exists [EvAutoMigrate (AutoMigrate_error env);
            EvGet CrowdBankSearchURL (UserAgent conf)].
    eexists. repeat split; reflexivity.
  - rewrite Hl, Ho, Hr, Hd, Hb.
    exists [EvAutoMigrate (AutoMigrate_error env);
            EvGet CrowdBankSearchURL (UserAgent conf)].
    eexists. repeat split; reflexivity.
  - rewrite Hl, Ho, Hr, Hd, Hb. repeat split; reflexivity.
Qed.

Lemma no_create_no_failed_create (events : list event) (fundID : string) :
  count is_create events = 0 -> count (is_failed_create_for fundID) events = 0.
Proof.
  unfold count. induction events as [|e events IH]; simpl; auto.
  destruct e as [| | | f [err|] | |]; simpl; try discriminate; auto.
Qed.

Section AtMostOnce.

Variables (fundID : string).
Hypothesis fundID_not_empty : fundID <> "".

(** Notifications delivered plus credit never grows in an iteration
    whose query for the identifier does not fail and which leaves no
    failed insert under the identifier. *)
Lemma iteration_credit (env : Env) (conf : Config) (fund : Fund)
    (st st' : State) :
  iteration env conf fund st st' ->
  failed_query_for fundID
    (ID fund, First_error env (length (trace st)) (ID fund)) = false ->
  count (is_failed_create_for fundID) (trace st') =
  count (is_failed_create_for fundID) (trace st) ->
  count (is_delivered_for fundID) (trace st') + credit (table st') fundID <=
  count (is_delivered_for fundID) (trace st) + credit (table st) fundID.
Proof.
  intros Hit Hq Hfc.
  destruct Hit as [Hs | e Hs Hp | e Hs Hp Hc | row Hs Hp Hio Hr Hid Hl].
  - lia.
  - simpl. unfold post_event. count_events. rewrite Nat.add_0_r. lia.
  - simpl in *. unfold post_event in *. revert Hfc. count_events.
    destruct (ID fund =? fundID); simpl; lia.
  - simpl. unfold post_event. count_events.
    unfold credit. rewrite has_live_record_app.
    destruct (String.eqb_spec (ID fund) fundID) as [Heq|Hneq].
    + unfold failed_query_for, failed_query in Hq. simpl in Hq.
      rewrite Heq, String.eqb_refl in Hq. simpl in Hq.
      rewrite Heq in Hs.
      destruct (First_error env (length (trace st)) fundID) eqn:Hf;
        [discriminate|].
      rewrite (is_sent_ran _ _ _ _ Hf) in Hs.
      rewrite already_sent_live in Hs by assumption.
      assert (Hrow : has_live_record [row] fundID = true).
      { apply has_live_record_true. exists row. simpl.
        repeat split; auto. congruence. }
      rewrite Hs, Hrow. cbn. lia.
    + destruct (has_live_record (table st) fundID);
        destruct (has_live_record [row] fundID); cbn; lia.
Qed.

Lemma notify_loop_credit (env : Env) (conf : Config) (funds : list Fund)
    (st : State) :
  existsb (failed_query_for fundID) (loop_queries env conf funds st) = false ->
  count (is_failed_create_for fundID) (trace (notify_loop env conf funds st)) =
  count (is_failed_create_for fundID) (trace st) ->
  count (is_delivered_for fundID) (trace (notify_loop env conf funds st)) +
    credit (table (notify_loop env conf funds st)) fundID <=
  count (is_delivered_for fundID) (trace st) + credit (table st) fundID.
Proof.
  revert st; induction funds as [|fund rest IH]; intros st Hq Hfc.
  - simpl. lia.
  - rewrite notify_loop_cons in *. simpl in Hq.
    apply orb_false_iff in Hq. destruct Hq as [Hq1 Hq2].
    pose proof (loop_body_iteration env conf fund st) as Hit.
    destruct (iteration_grows env conf fund st _ Hit)
      as (added1 & new1 & _ & Hn1 & _).
    destruct (notify_loop_grows env conf rest (loop_body env conf fund st))
      as (added2 & new2 & _ & Hn2 & _).
    assert (H1 : count (is_failed_create_for fundID)
                   (trace (loop_body env conf fund st)) =
                 count (is_failed_create_for fundID) (trace st)).
    { rewrite Hn2, Hn1, !count_app in Hfc. rewrite Hn1, count_app. lia. }
    assert (H2 : count (is_failed_create_for fundID)
                   (trace (notify_loop env conf rest (loop_body env conf fund st))) =
                 count (is_failed_create_for fundID)
                   (trace (loop_body env conf fund st))) by lia.
    pose proof (iteration_credit env conf fund st _ Hit Hq1 H1).
    pose proof (IH _ Hq2 H2). lia.
Qed.

Lemma run_credit (env : Env) (confPath : string) (rows : list SendList) :
  existsb (failed_query_for fundID) (run_queries env confPath rows) = false ->
  count (is_failed_create_for fundID) (snd (run env confPath rows)) = 0 ->
  count (is_delivered_for fundID) (snd (run env confPath rows)) +
    credit (snd (fst (run env confPath rows))) fundID <=
  credit rows fundID.
Proof.
  unfold run_queries. intros Hq Hfc.
  pose proof (run_entry env confPath rows) as Hrun.
  destruct (loop_entry env confPath rows) as [[[conf funds] st]|].
  - destruct Hrun as (Hrun & Ht & Hp & Hc). rewrite Hrun in *. simpl in *.
    assert (Hfc0 : count (is_failed_create_for fundID) (trace st) = 0)
      by (apply no_create_no_failed_create; assumption).
    pose proof (notify_loop_credit env conf funds st Hq) as H.
    rewrite Hfc, Hfc0 in H. specialize (H eq_refl).
    rewrite (no_post_no_delivery _ fundID Hp), Ht in H. lia.
  - destruct Hrun as (pre & line & Hrun & Hp & _). rewrite Hrun. simpl.
    rewrite count_app, (no_post_no_delivery _ _ Hp). simpl. lia.
Qed.

Lemma lifetime_credit (runs : list (Env * string)) (rows : list SendList) :
  existsb (failed_query_for fundID) (lifetime_queries runs rows) = false ->
  count (is_failed_create_for fundID) (snd (lifetime runs rows)) = 0 ->
  count (is_delivered_for fundID) (snd (lifetime runs rows)) +
    credit (fst (lifetime runs rows)) fundID <=
  credit rows fundID.
Proof.
  revert rows; induction runs as [|[env confPath] later IH]; intros rows Hq Hfc.
  - simpl. lia.
  - simpl in Hq, Hfc |- *. rewrite existsb_app in Hq.
    apply orb_false_iff in Hq. destruct Hq as [Hq1 Hq2].
    pose proof (run_credit env confPath rows Hq1) as H1.
    destruct (run env confPath rows) as [[status rows'] events].
    simpl in H1, Hq2. specialize (IH rows' Hq2).
    destruct (lifetime later rows') as [rows'' events'].
    simpl in *. rewrite count_app in Hfc |- *.
    assert (Hfc1 : count (is_failed_create_for fundID) events = 0) by lia.
    assert (Hfc2 : count (is_failed_create_for fundID) events' = 0) by lia.
    specialize (H1 Hfc1). specialize (IH Hfc2). lia.
Qed.

End AtMostOnce.

(** C1, as the claim states it, fails in several ways, each on a
    database file that starts empty.  When the post is delivered and the
    insert then fails in the store, the next run delivers a second
    notification for "F1".  A fund whose identifier is empty is recorded
    by the first run and still notified by the second, in a world where
    nothing fails.  When the query of the second run fails in the store,
    the fund recorded by the first run is notified again.  And when the
    post of the first run fails, with every query and every insert
    working, two posts are made for "F1" over the two runs, of which one
    is delivered. *)
Lemma at_most_one_counterexample :
  count (is_delivered_for "F1")
    (snd (lifetime
       [ (Sample.world None
            (Ok (mkHttpResponse 200 (Ok (Sample.response [Sample.fundA]))))
            Sample.accepts Sample.disk_full, "config.yaml");
         (Sample.healthy [Sample.fundA], "config.yaml") ]
       [])) = 2 /\
  count (is_delivered_for "")
    (snd (lifetime
       [ (Sample.healthy [Sample.fundNoID], "config.yaml");
         (Sample.healthy [Sample.fundNoID], "config.yaml") ]
       [])) = 2 /\
  count (is_delivered_for "F1")
    (snd (lifetime
       [ (Sample.healthy [Sample.fundA], "config.yaml");
         (Sample.with_query Sample.locked (Sample.healthy [Sample.fundA]),
          "config.yaml") ]
       [])) = 2 /\
  (let runs :=
     [ (Sample.world None
          (Ok (mkHttpResponse 200 (Ok (Sample.response [Sample.fundA]))))
          Sample.rejects Sample.writes, "config.yaml");
       (Sample.healthy [Sample.fundA], "config.yaml") ] in
   existsb (failed_query_for "F1") (lifetime_queries runs []) = false /\
   count (is_failed_create_for "F1") (snd (lifetime runs [])) = 0 /\
   count (is_post_for "F1") (snd (lifetime runs [])) = 2 /\
   count (is_delivered_for "F1") (snd (lifetime runs [])) = 1).
Proof. repeat split; reflexivity. Qed.

(** C1, amended.  Over any sequence of runs on a database file, at most
    one notification is delivered (posted without error) under an
    identifier other than the empty string, provided that none of the
    queries the runs make for that identifier fails in the store and that
    none of the inserts they attempt under that identifier fails.  Posts
    that fail are not counted: a fund whose post fails is posted again. *)
Theorem at_most_one_notification (runs : list (Env * string))
    (rows : list SendList) (fundID : string) :
  fundID <> "" ->
  existsb (failed_query_for fundID) (lifetime_queries runs rows) = false ->
  count (is_failed_create_for fundID) (snd (lifetime runs rows)) = 0 ->
  count (is_delivered_for fundID) (snd (lifetime runs rows)) <= 1.
Proof.
  intros Hne Hq Hfc.
  pose proof (lifetime_credit fundID Hne runs rows Hq Hfc) as H.
  unfold credit in H.
  destruct (has_live_record (fst (lifetime runs rows)) fundID);
    destruct (has_live_record rows fundID); lia.
Qed.

Lemma at_most_one_notification_witness :
  count (is_delivered_for "F1")
    (snd (lifetime
       [ (Sample.world None
            (Ok (mkHttpResponse 200 (Ok (Sample.response [Sample.fundA]))))
            Sample.rejects Sample.writes, "config.yaml");
         (Sample.healthy [Sample.fundA], "config.yaml");
         (Sample.world None
            (Ok (mkHttpResponse 200
                   (Ok (Sample.response [Sample.fundB; Sample.fundA]))))
            Sample.accepts Sample.disk_full, "config.yaml") ]
       [])) <= 1.
Proof.
  apply (at_most_one_notification
           [ (Sample.world None
                (Ok (mkHttpResponse 200 (Ok (Sample.response [Sample.fundA]))))
                Sample.rejects Sample.writes, "config.yaml");
             (Sample.healthy [Sample.fundA], "config.yaml");
             (Sample.world None
                (Ok (mkHttpResponse 200
                       (Ok (Sample.response [Sample.fundB; Sample.fundA]))))
                Sample.accepts Sample.disk_full, "config.yaml") ]
           [] "F1").
  - discriminate.
  - reflexivity.
  - reflexivity.
Defined.

(** * Further properties of the code *)

(** ** The start-up sequence and the exits *)

(** X1. A configuration that cannot be loaded ends the run at once: the
    file cannot be opened, or cannot be read, or does not parse; in each
    case the run has status 1, leaves the rows as they are, and its only
    event is the fatal line carrying the error of that step.  Nothing is
    migrated, requested or posted. *)
Theorem load_failure_is_fatal (env : Env) (confPath : string)
    (rows : list SendList) (e : string) :
  os_Open env confPath = Some e \/
  (os_Open env confPath = None /\ io_ReadAll env confPath = Err e) \/
  (exists buf, os_Open env confPath = None /\
               io_ReadAll env confPath = Ok buf /\
               yaml_Unmarshal env buf = Err e) ->
  run env confPath rows =
    (1%Z, rows, [EvFatalf ("Failed to load config: " ++ e)]).
Proof.
  intros H.
  assert (Hload : Load env confPath = Err e).
  { unfold Load.
    destruct H as [Ho | [[Ho Hr] | [buf (Ho & Hr & Hy)]]].
    - rewrite Ho. reflexivity.
    - rewrite Ho, Hr. reflexivity.
    - rewrite Ho, Hr, Hy. reflexivity. }
  unfold run, main, bind, value_or_fatal, log_Fatalf, emit.
  rewrite Hload. reflexivity.
Qed.

Lemma load_failure_is_fatal_witness :
  run (mkEnv (fun _ => None) (fun _ => Ok "UserAgent: [")
             (fun _ => Err "yaml: line 1: did not find expected node content")
             (fun _ => None) None (fun _ _ => None)
             (fun _ _ => Err "unreachable") Sample.accepts Sample.writes
             (fun _ => 0%Z) (fun _ _ => None))
      "config.yaml" [Sample.row 1 None "F1"] =
    (1%Z, [Sample.row 1 None "F1"],
     [EvFatalf "Failed to load config: yaml: line 1: did not find expected node content"]).
Proof.
  apply (load_failure_is_fatal
           (mkEnv (fun _ => None) (fun _ => Ok "UserAgent: [")
                  (fun _ => Err "yaml: line 1: did not find expected node content")
                  (fun _ => None) None (fun _ _ => None)
                  (fun _ _ => Err "unreachable") Sample.accepts Sample.writes
                  (fun _ => 0%Z) (fun _ _ => None))
           "config.yaml" [Sample.row 1 None "F1"]
           "yaml: line 1: did not find expected node content").
  right. right. exists "UserAgent: [". repeat split; reflexivity.
Defined.

Lemma open_failure_is_fatal_witness :
  run (mkEnv (fun _ => None) (fun _ => Ok "Database: /nonexistent/cb.db")
             (fun _ => Ok Sample.conf)
             (fun _ => Some "unable to open database file") None
             (fun _ _ => None) (fun _ _ => Err "unreachable")
             Sample.accepts Sample.writes (fun _ => 0%Z) (fun _ _ => None))
      "config.yaml" [] =
    (1%Z, [], [EvFatalf "Failed to open database: unable to open database file"]).
Proof.
  apply (open_failure_is_fatal
           (mkEnv (fun _ => None) (fun _ => Ok "Database: /nonexistent/cb.db")
                  (fun _ => Ok Sample.conf)
                  (fun _ => Some "unable to open database file") None
                  (fun _ _ => None) (fun _ _ => Err "unreachable")
                  Sample.accepts Sample.writes (fun _ => 0%Z) (fun _ _ => None))
           "config.yaml" [] Sample.conf "unable to open database file");
    reflexivity.
Defined.

Lemma loop_event_quiet (conf : Config) (funds : list Fund) (new : list event) :
  Forall (loop_event conf funds) new ->
  count is_fatal new = 0 /\ count is_get new = 0.
Proof.
  induction 1 as [|e new He _ [IHf IHg]]; [split; reflexivity|].
  rewrite !count_cons, IHf, IHg.
  destruct e; simpl in *; auto; destruct He.
Qed.

(** X2. From line 99 on, that is once [flag.Parse] has accepted the
    command line and left the path in [confPath], the exit status tells
    whether the run reached the loop.  Such a run ends either with status 0 and no fatal line at all, whatever the
    webhook and the store answered for each fund; or with status 1, the
    rows untouched, no post and no insert, and one fatal line, which is
    the last event. *)
Theorem exit_status (env : Env) (confPath : string) (rows : list SendList) :
  (fst (fst (run env confPath rows)) = 0%Z /\
   count is_fatal (snd (run env confPath rows)) = 0) \/
  (fst (fst (run env confPath rows)) = 1%Z /\
   snd (fst (run env confPath rows)) = rows /\
   count is_post (snd (run env confPath rows)) = 0 /\
   count is_create (snd (run env confPath rows)) = 0 /\
   exists pre line,
     snd (run env confPath rows) = pre ++ [EvFatalf line] /\
     count is_fatal pre = 0).
Proof.
  destruct (run_shape_holds env confPath rows)
    as [e Hl | conf e Hl Ho | conf e Hl Ho Hr | conf e Hl Ho Hr Hd
        | conf resp e Hl Ho Hr Hd Hb | conf resp response Hl Ho Hr Hd Hb].
  - right. simpl. repeat split; auto. exists []. eexists. split; reflexivity.
  - right. simpl. repeat split; auto. exists []. eexists. split; reflexivity.
  - right. simpl. repeat split; auto.
    exists [EvAutoMigrate (AutoMigrate_error env)]. eexists.
    split; reflexivity.
  - right. simpl. repeat split; auto.
    exists [EvAutoMigrate (AutoMigrate_error env);
            EvGet CrowdBankSearchURL (UserAgent conf)]. eexists.
    split; reflexivity.
  - right. simpl. repeat split; auto.
    exists [EvAutoMigrate (AutoMigrate_error env);
            EvGet CrowdBankSearchURL (UserAgent conf)]. eexists.
    split; reflexivity.
  - left. simpl. split; auto.
    destruct (notify_loop_grows env conf (List (Response_Data response))
                (mkState rows [EvAutoMigrate (AutoMigrate_error env);
                               EvGet CrowdBankSearchURL (UserAgent conf)]))
      as (added & new & _ & Hn & He & _).
    rewrite Hn. simpl trace. rewrite count_app.
    destruct (loop_event_quiet _ _ _ He) as [Hf _]. rewrite Hf. reflexivity.
Qed.

(** X3. A run fetches the fund list at most once, and only once the
    configuration is loaded and the database is open: the GET events of
    a run are none, or the single GET of the fixed search URL with the
    user agent of the loaded configuration.  (The webhook posts, which
    are HTTP requests of their own, are not counted here.) *)
Theorem at_most_one_request (env : Env) (confPath : string)
    (rows : list SendList) :
  filter is_get (snd (run env confPath rows)) = [] \/
  exists conf,
    Load env confPath = Ok conf /\
    gorm_Open env (Database conf) = None /\
    filter is_get (snd (run env confPath rows)) =
      [EvGet "https://crowdbank.jp/api/v1/funds/search?keyword=&region=&project=&status=21"
             (UserAgent conf)].
Proof.
  destruct (run_shape_holds env confPath rows)
    as [e Hl | conf e Hl Ho | conf e Hl Ho Hr | conf e Hl Ho Hr Hd
        | conf resp e Hl Ho Hr Hd Hb | conf resp response Hl Ho Hr Hd Hb].
  - left. reflexivity.
  - left. reflexivity.
  - left. reflexivity.
  - right. exists conf. repeat split; auto.
  - right. exists conf. repeat split; auto.
  - right. exists conf. repeat split; auto. simpl snd.
    destruct (notify_loop_grows env conf (List (Response_Data response))
                (mkState rows [EvAutoMigrate (AutoMigrate_error env);
                               EvGet CrowdBankSearchURL (UserAgent conf)]))
      as (added & new & _ & Hn & He & _).
    rewrite Hn. simpl trace. rewrite filter_app.
    destruct (loop_event_quiet _ _ _ He) as [_ Hg].
    unfold count in Hg. apply length_zero_iff_nil in Hg. rewrite Hg.
    reflexivity.
Qed.

(** X4. Whatever a run posts comes from the response it decoded and
    goes to the configured URL: every post event of a run carries the
    message built from one of the funds listed in the decoded response,
    under that fund's identifier, and is addressed to the webhook URL of
    the loaded configuration. *)
Theorem posts_come_from_the_response (env : Env) (confPath : string)
    (rows : list SendList) (e : event) :
  In e (snd (run env confPath rows)) ->
  is_post e = true ->
  exists conf resp response fund err,
    Load env confPath = Ok conf /\
    http_Do env CrowdBankSearchURL (UserAgent conf) = Ok resp /\
    Body resp = Ok response /\
    In fund (List (Response_Data response)) /\
    e = EvPostWebhook (ID fund) (SlackWebhookURL conf) (webhook_message fund) err.
Proof.
  destruct (run_shape_holds env confPath rows)
    as [e0 Hl | conf e0 Hl Ho | conf e0 Hl Ho Hr | conf e0 Hl Ho Hr Hd
        | conf resp e0 Hl Ho Hr Hd Hb | conf resp response Hl Ho Hr Hd Hb];
    simpl snd; intros Hin Hpost.
  1-5: simpl in Hin;
       repeat (destruct Hin as [<-|Hin]; [discriminate Hpost|]);
       destruct Hin.
  destruct (notify_loop_grows env conf (List (Response_Data response))
              (mkState rows [EvAutoMigrate (AutoMigrate_error env);
                             EvGet CrowdBankSearchURL (UserAgent conf)]))
    as (added & new & _ & Hn & He & _).
  rewrite Hn in Hin. simpl trace in Hin. apply in_app_or in Hin.
  destruct Hin as [Hin|Hin].
  - simpl in Hin. destruct Hin as [<-|[<-|[]]]; discriminate Hpost.
  - rewrite Forall_forall in He. specialize (He e Hin).
    destruct e as [| | f url msg err | | |]; try discriminate Hpost.
    simpl in He. destruct He as [-> [fund (Hf & -> & ->)]].
    exists conf, resp, response, fund, err. auto.
Qed.

Lemma posts_come_from_the_response_witness :
  exists conf resp response fund err,
    Load (Sample.healthy [Sample.fundA; Sample.fundB]) "config.yaml" = Ok conf /\
    http_Do (Sample.healthy [Sample.fundA; Sample.fundB]) CrowdBankSearchURL
            (UserAgent conf) = Ok resp /\
    Body resp = Ok response /\
    In fund (List (Response_Data response)) /\
    EvPostWebhook "F2" (SlackWebhookURL Sample.conf)
                  (webhook_message Sample.fundB) None =
    EvPostWebhook (ID fund) (SlackWebhookURL conf) (webhook_message fund) err.
Proof.
  apply (posts_come_from_the_response
           (Sample.healthy [Sample.fundA; Sample.fundB]) "config.yaml"
           [Sample.row 1 None "F1"]).
  - simpl. right. right. left. reflexivity.
  - reflexivity.
Defined.

(** X5. Inserts follow delivered posts: in the events of a run, every
    insert attempt comes right after a post that was delivered under the
    same identifier.  Nothing is recorded that was not notified just
    before. *)
Theorem insert_only_after_delivery (env : Env) (confPath : string)
    (rows : list SendList) :
  inserts_follow_posts None (snd (run env confPath rows)) = true.
Proof.
  destruct (run_shape_holds env confPath rows)
    as [e Hl | conf e Hl Ho | conf e Hl Ho Hr | conf e Hl Ho Hr Hd
        | conf resp e Hl Ho Hr Hd Hb | conf resp response Hl Ho Hr Hd Hb];
    try reflexivity.
  simpl snd.
  destruct (notify_loop_grows env conf (List (Response_Data response))
              (mkState rows [EvAutoMigrate (AutoMigrate_error env);
                             EvGet CrowdBankSearchURL (UserAgent conf)]))
    as (added & new & _ & Hn & _ & _ & Ho' & _).
  rewrite Hn. simpl trace.
  apply inserts_follow_posts_app; [reflexivity|assumption].
Qed.

(** ** The table over the lifetime of the file *)

Lemma run_appends (env : Env) (confPath : string) (rows : list SendList) :
  exists added,
    snd (fst (run env confPath rows)) = rows ++ added /\
    Forall (fun r => gorm.DeletedAt (Model r) = None) added /\
    length added = count is_inserted (snd (run env confPath rows)).
Proof.
  destruct (run_shape_holds env confPath rows)
    as [e Hl | conf e Hl Ho | conf e Hl Ho Hr | conf e Hl Ho Hr Hd
        | conf resp e Hl Ho Hr Hd Hb | conf resp response Hl Ho Hr Hd Hb].
  1-5: exists []; simpl; rewrite app_nil_r; repeat split; auto.
  destruct (notify_loop_grows env conf (List (Response_Data response))
              (mkState rows [EvAutoMigrate (AutoMigrate_error env);
                             EvGet CrowdBankSearchURL (UserAgent conf)]))
    as (added & new & Ht & Hn & _ & Ha & _ & Hc).
  exists added. simpl fst. simpl snd. rewrite Ht, Hn. simpl table. simpl trace.
  repeat split; auto.
  eapply Forall_impl; [|exact Ha]. intros r [Hlive _]. exact Hlive.
Qed.

(** X6. The program only ever adds rows.  Over any sequence of runs,
    in any worlds, the rows of the file at the end are the rows at the
    start, unchanged and in place, followed by the rows added; the added
    rows are not soft-deleted; and there is one of them for each insert
    that succeeded. *)
Theorem rows_are_only_added (runs : list (Env * string)) (rows : list SendList) :
  exists added,
    fst (lifetime runs rows) = rows ++ added /\
    Forall (fun r => gorm.DeletedAt (Model r) = None) added /\
    length added = count is_inserted (snd (lifetime runs rows)).
Proof.
  revert rows; induction runs as [|[env confPath] later IH]; intros rows.
  - exists []. simpl. rewrite app_nil_r. auto.
  - simpl.
    destruct (run_appends env confPath rows) as (added1 & Ht1 & Hl1 & Hc1).
    destruct (run env confPath rows) as [[status rows'] events].
    simpl in Ht1, Hc1. subst rows'.
    destruct (IH (rows ++ added1)) as (added2 & Ht2 & Hl2 & Hc2).
    destruct (lifetime later (rows ++ added1)) as [rows'' events'].
    simpl in *. exists (added1 ++ added2).
    rewrite Ht2, <- app_assoc. repeat split; auto.
    + apply Forall_app. auto.
    + rewrite length_app, count_app. lia.
Qed.

Lemma has_record_false (rows : list SendList) (fundID : string) :
  has_record rows fundID = false -> ~ In fundID (map FundID rows).
Proof.
  unfold has_record. intros H Hin. apply in_map_iff in Hin.
  destruct Hin as [r [Hid Hin]].
  assert (Ht : existsb (fun r => FundID r =? fundID) rows = true).
  { apply existsb_exists. exists r. split; auto. apply String.eqb_eq. auto. }
  congruence.
Qed.

Lemma NoDup_snoc (l : list string) (x : string) :
  NoDup l -> ~ In x l -> NoDup (l ++ [x]).
Proof.
  intros Hnd Hx.
  apply (NoDup_Add (a := x) (l := l)).
  - rewrite <- (app_nil_r l) at 1. apply Add_app.
  - auto.
Qed.

Lemma iteration_unique (env : Env) (conf : Config) (fund : Fund)
    (st st' : State) :
  iteration env conf fund st st' ->
  NoDup (map FundID (table st)) -> NoDup (map FundID (table st')).
Proof.
  intros Hit Hnd.
  destruct Hit as [Hs | e Hs Hp | e Hs Hp Hc | row Hs Hp Hio Hr Hid Hl];
    simpl; auto.
  rewrite map_app. simpl. apply NoDup_snoc; auto.
  rewrite Hid. apply has_record_false. assumption.
Qed.

Lemma notify_loop_unique (env : Env) (conf : Config) (funds : list Fund)
    (st : State) :
  NoDup (map FundID (table st)) ->
  NoDup (map FundID (table (notify_loop env conf funds st))).
Proof.
  revert st; induction funds as [|fund rest IH]; intros st Hnd; auto.
  rewrite notify_loop_cons. apply IH.
  apply (iteration_unique env conf fund st _
           (loop_body_iteration env conf fund st) Hnd).
Qed.

Lemma run_unique (env : Env) (confPath : string) (rows : list SendList) :
  NoDup (map FundID rows) ->
  NoDup (map FundID (snd (fst (run env confPath rows)))).
Proof.
  intros Hnd.
  destruct (run_shape_holds env confPath rows)
    as [e Hl | conf e Hl Ho | conf e Hl Ho Hr | conf e Hl Ho Hr Hd
        | conf resp e Hl Ho Hr Hd Hb | conf resp response Hl Ho Hr Hd Hb];
    simpl; auto.
  apply notify_loop_unique. exact Hnd.
Qed.

(** X7. No identifier is ever recorded twice.  If the identifiers of the
    rows are pairwise distinct at the start, they still are after any
    sequence of runs, even when the response lists a fund several times,
    when lookups miss soft-deleted rows, or when posts and writes fail. *)
Theorem fund_ids_stay_unique (runs : list (Env * string))
    (rows : list SendList) :
  NoDup (map FundID rows) ->
  NoDup (map FundID (fst (lifetime runs rows))).
Proof.
  revert rows; induction runs as [|[env confPath] later IH]; intros rows Hnd.
  - exact Hnd.
  - simpl. pose proof (run_unique env confPath rows Hnd) as H1.
    destruct (run env confPath rows) as [[status rows'] events].
    simpl in H1. specialize (IH rows' H1).
    destruct (lifetime later rows') as [rows'' events']. exact IH.
Qed.

Lemma fund_ids_stay_unique_witness :
  NoDup (map FundID
           (fst (lifetime
                   [ (Sample.healthy [Sample.fundA; Sample.fundA; Sample.fundB],
                      "config.yaml");
                     (Sample.healthy [Sample.fundB; Sample.fundNoID],
                      "config.yaml") ]
                   [Sample.row 1 (Some 1695000000%Z) "F1"]))).
Proof.
  apply (fund_ids_stay_unique
           [ (Sample.healthy [Sample.fundA; Sample.fundA; Sample.fundB],
              "config.yaml");
             (Sample.healthy [Sample.fundB; Sample.fundNoID], "config.yaml") ]
           [Sample.row 1 (Some 1695000000%Z) "F1"]).
  simpl. constructor; [intros []|constructor].
Defined.

(** X8. Insert, then look up.  When an iteration ends with an insert
    that succeeded, for a fund whose identifier is not the empty string,
    the existence test succeeds for that identifier from then on, at any
    query that does not fail in the store, and it answers as before for
    every other identifier.  When an iteration ends without an insert
    that succeeded, the rows are left as they were. *)
Theorem insert_then_lookup (env : Env) (conf : Config) (fund : Fund)
    (st : State) :
  let st' := loop_body env conf fund st in
  (count is_inserted (trace st') = S (count is_inserted (trace st)) ->
   (ID fund <> "" ->
    forall (env' : Env) (at_ : nat),
      First_error env' at_ (ID fund) = None ->
      is_sent env' at_ (table st') (ID fund) = true) /\
   (forall (env' : Env) (at_ : nat) (other : string),
      other <> ID fund ->
      is_sent env' at_ (table st') other = is_sent env' at_ (table st) other)) /\
  (count is_inserted (trace st') = count is_inserted (trace st) ->
   table st' = table st).
Proof.
  intros st'. subst st'.
  destruct (loop_body_iteration env conf fund st)
    as [Hs | e Hs Hp | e Hs Hp Hc | row Hs Hp Hio Hr Hid Hl]; simpl.
  - split; [intros H; lia|reflexivity].
  - split; [|reflexivity]. unfold post_event. count_events. intros H. lia.
  - split; [|reflexivity]. unfold post_event. count_events. intros H. lia.
  - split.
    + intros _. split.
      * intros Hne env' at_ Hq. rewrite (is_sent_ran _ _ _ _ Hq).
        apply already_sent_true. split; auto.
        rewrite has_live_record_app. apply orb_true_iff. right.
        apply has_live_record_true. exists row. simpl. auto.
      * intros env' at_ other Hother.
        destruct (First_error env' at_ other) as [e|] eqn:Hq.
        -- rewrite !(is_sent_failed _ _ _ _ _ Hq). reflexivity.
        -- rewrite !(is_sent_ran _ _ _ _ Hq).
           destruct (String.eqb_spec other "") as [->|Hne].
           ++ rewrite !already_sent_empty. reflexivity.
           ++ rewrite !already_sent_live by assumption.
              rewrite has_live_record_app.
              unfold has_live_record at 2, selected. simpl. rewrite Hid.
              assert (Hf : (ID fund =? other) = false)
                by (apply String.eqb_neq; congruence).
              rewrite Hf. simpl. apply orb_false_r.
    + unfold post_event. count_events. intros H. lia.
Qed.

Lemma insert_then_lookup_witness :
  is_sent (Sample.healthy []) 9
    (table (loop_body (Sample.healthy []) Sample.conf Sample.fundB
              (mkState [Sample.row 1 None "F1"] []))) "F2" = true.
Proof.
  destruct (insert_then_lookup (Sample.healthy []) Sample.conf Sample.fundB
              (mkState [Sample.row 1 None "F1"] [])) as [Hok _].
  destruct (Hok eq_refl) as [Hsent _].
  apply Hsent; [discriminate|reflexivity].
Defined.

(** ** Recorded funds, new funds, and runs where nothing fails *)

Lemma no_post_no_post_for (events : list event) (fundID : string) :
  count is_post events = 0 -> count (is_post_for fundID) events = 0.
Proof.
  unfold count. induction events as [|e events IH]; simpl; auto.
  destruct e; simpl; try discriminate; auto.
Qed.

Lemma run_sent_stays (env : Env) (confPath : string) (rows : list SendList)
    (fundID : string) :
  already_sent rows fundID = true ->
  already_sent (snd (fst (run env confPath rows))) fundID = true /\
  (existsb (failed_query_for fundID) (run_queries env confPath rows) = false ->
   count (is_post_for fundID) (snd (run env confPath rows)) = 0).
Proof.
  intros Hsent. unfold run_queries.
  pose proof (run_entry env confPath rows) as Hrun.
  destruct (loop_entry env confPath rows) as [[[conf funds] st]|].
  - destruct Hrun as (Hrun & Ht & Hp & _). rewrite Hrun. simpl.
    rewrite <- Ht in Hsent.
    destruct (notify_loop_sent_stays env conf funds st fundID Hsent)
      as [Hs Hc].
    split; [exact Hs|]. intros Hq. rewrite (Hc Hq).
    apply no_post_no_post_for. exact Hp.
  - destruct Hrun as (pre & line & Hrun & Hp & _). rewrite Hrun. simpl.
    split; [exact Hsent|]. intros _.
    rewrite count_app, (no_post_no_post_for _ _ Hp). reflexivity.
Qed.

(** X9. Once the table holds, for an identifier that is not empty, a row
    that is not soft-deleted, no later run posts under that identifier,
    provided none of the queries those runs make for it fails in the
    store; whatever else the runs meet: failing start-up, failing fetch,
    failing webhook, failing writes.  The row stays. *)
Theorem recorded_is_never_posted_again (runs : list (Env * string))
    (rows : list SendList) (fundID : string) :
  already_sent rows fundID = true ->
  already_sent (fst (lifetime runs rows)) fundID = true /\
  (existsb (failed_query_for fundID) (lifetime_queries runs rows) = false ->
   count (is_post_for fundID) (snd (lifetime runs rows)) = 0).
Proof.
  revert rows; induction runs as [|[env confPath] later IH]; intros rows Hsent.
  - simpl. auto.
  - simpl. destruct (run_sent_stays env confPath rows fundID Hsent) as [Hs Hc].
    destruct (run env confPath rows) as [[status rows'] events].
    simpl in Hs, Hc |- *. destruct (IH rows' Hs) as [Hs' Hc'].
    destruct (lifetime later rows') as [rows'' events'].
    simpl in *. split; [assumption|]. intros Hq.
    rewrite existsb_app in Hq. apply orb_false_iff in Hq.
    destruct Hq as [Hq1 Hq2].
    rewrite count_app, (Hc Hq1), (Hc' Hq2). reflexivity.
Qed.

Lemma recorded_is_never_posted_again_witness :
  count (is_post_for "F1")
    (snd (lifetime
       [ (Sample.world None
            (Ok (mkHttpResponse 200 (Ok (Sample.response [Sample.fundA; Sample.fundB]))))
            Sample.rejects Sample.disk_full, "config.yaml");
         (Sample.healthy [Sample.fundB; Sample.fundA], "config.yaml") ]
       [Sample.row 7 None "F1"])) = 0.
Proof.
  destruct (recorded_is_never_posted_again
              [ (Sample.world None
                   (Ok (mkHttpResponse 200 (Ok (Sample.response [Sample.fundA; Sample.fundB]))))
                   Sample.rejects Sample.disk_full, "config.yaml");
                (Sample.healthy [Sample.fundB; Sample.fundA], "config.yaml") ]
              [Sample.row 7 None "F1"] "F1" eq_refl) as [_ Hc].
  exact (Hc eq_refl).
Defined.

Section NewFunds.

Variables (env : Env) (conf : Config).

Lemma iteration_post_for_mono (fund : Fund) (st st' : State) (fundID : string) :
  iteration env conf fund st st' ->
  count (is_post_for fundID) (trace st) <= count (is_post_for fundID) (trace st').
Proof.
  intros Hit.
  destruct (iteration_grows env conf fund st st' Hit)
    as (added & new & _ & Hn & _).
  rewrite Hn, count_app. lia.
Qed.

Lemma notify_loop_post_for_mono (funds : list Fund) (st : State)
    (fundID : string) :
  count (is_post_for fundID) (trace st) <=
  count (is_post_for fundID) (trace (notify_loop env conf funds st)).
Proof.
  destruct (notify_loop_grows env conf funds st) as (added & new & _ & Hn & _).
  rewrite Hn, count_app. lia.
Qed.

(** The rows start to hold a live row for an identifier only in an
    iteration that posts under it. *)
Lemma iteration_becomes_sent (fund : Fund) (st st' : State) (fundID : string) :
  iteration env conf fund st st' ->
  already_sent (table st) fundID = false ->
  already_sent (table st') fundID = true ->
  count (is_post_for fundID) (trace st) < count (is_post_for fundID) (trace st').
Proof.
  intros Hit Hbefore Hafter.
  destruct Hit as [Hs | e Hs Hp | e Hs Hp Hc | row Hs Hp Hio Hr Hid Hl];
    simpl in Hafter; try congruence.
  apply already_sent_true in Hafter. destruct Hafter as [Hne Hlive].
  rewrite already_sent_live in Hbefore by assumption.
  rewrite has_live_record_app, Hbefore in Hlive. simpl in Hlive.
  unfold has_live_record in Hlive. simpl in Hlive.
  rewrite orb_false_r in Hlive. apply selected_true in Hlive.
  destruct Hlive as [Hrow _].
  simpl. unfold post_event. count_events.
  assert (Heq : (ID fund =? fundID) = true)
    by (apply String.eqb_eq; congruence).
  rewrite Heq. simpl. lia.
Qed.

Lemma iteration_posts_new (fund : Fund) (st st' : State) :
  iteration env conf fund st st' ->
  already_sent (table st) (ID fund) = false ->
  count (is_post_for (ID fund)) (trace st) <
  count (is_post_for (ID fund)) (trace st').
Proof.
  intros Hit Hnew.
  destruct Hit as [Hs | e Hs Hp | e Hs Hp Hc | row Hs Hp Hio Hr Hid Hl].
  - apply is_sent_true in Hs. destruct Hs as [_ Hs]. congruence.
  - simpl; unfold post_event; count_events; lia.
  - simpl; unfold post_event; count_events; lia.
  - simpl; unfold post_event; count_events; lia.
Qed.

End NewFunds.

(** X10. No unrecorded fund is passed over.  For every fund of the list
    that fails the existence test when the loop starts, the loop attempts
    at least one post under its identifier, whatever happens to the funds
    before it: a failed post or a failed insert for one fund does not
    take the turn of another. *)
Theorem every_new_fund_is_attempted (env : Env) (conf : Config)
    (funds : list Fund) (st : State) (fund : Fund) :
  In fund funds ->
  already_sent (table st) (ID fund) = false ->
  count (is_post_for (ID fund)) (trace st) <
  count (is_post_for (ID fund)) (trace (notify_loop env conf funds st)).
Proof.
  revert st; induction funds as [|f rest IH]; intros st Hin Hnew.
  - destruct Hin.
  - rewrite notify_loop_cons.
    pose proof (loop_body_iteration env conf f st) as Hit.
    pose proof (notify_loop_post_for_mono env conf rest (loop_body env conf f st)
                  (ID fund)) as Hmono.
    destruct Hin as [->|Hin].
    + pose proof (iteration_posts_new env conf fund st _ Hit Hnew). lia.
    + destruct (already_sent (table (loop_body env conf f st)) (ID fund)) eqn:Hs1.
      * pose proof (iteration_becomes_sent env conf f st _ (ID fund) Hit Hnew Hs1). lia.
      * pose proof (IH _ Hin Hs1).
        pose proof (iteration_post_for_mono env conf f st _ (ID fund) Hit). lia.
Qed.

Lemma every_new_fund_is_attempted_witness :
  0 < count (is_post_for "F2")
        (trace (notify_loop
                  (Sample.world None (Err "unused") Sample.rejects Sample.disk_full)
                  Sample.conf [Sample.fundA; Sample.fundB] (mkState [] []))).
Proof.
  apply (every_new_fund_is_attempted
           (Sample.world None (Err "unused") Sample.rejects Sample.disk_full)
           Sample.conf [Sample.fundA; Sample.fundB] (mkState [] []) Sample.fundB).
  - simpl. right. left. reflexivity.
  - reflexivity.
Defined.

Section NothingFails.

Variables (env : Env) (conf : Config).

(** An iteration in which neither the post nor the insert fails leaves a
    row that is not soft-deleted for its fund. *)
Lemma iteration_records (fund : Fund) (st st' : State) :
  iteration env conf fund st st' ->
  count is_failed_post (trace st') = count is_failed_post (trace st) ->
  count is_failed_create (trace st') = count is_failed_create (trace st) ->
  ID fund <> "" ->
  already_sent (table st') (ID fund) = true.
Proof.
  intros Hit Hfp Hfc Hne.
  destruct Hit as [Hs | e Hs Hp | e Hs Hp Hc | row Hs Hp Hio Hr Hid Hl].
  - apply is_sent_true in Hs. tauto.
  - exfalso. revert Hfp. simpl. unfold post_event. count_events. lia.
  - exfalso. revert Hfc. simpl. unfold post_event. count_events. lia.
  - simpl. apply already_sent_true. split; auto.
    rewrite has_live_record_app. apply orb_true_iff. right.
    apply has_live_record_true. exists row. simpl. auto.
Qed.

Lemma notify_loop_records (funds : list Fund) (st : State) (fund : Fund) :
  count is_failed_post (trace (notify_loop env conf funds st)) =
    count is_failed_post (trace st) ->
  count is_failed_create (trace (notify_loop env conf funds st)) =
    count is_failed_create (trace st) ->
  In fund funds ->
  ID fund <> "" ->
  already_sent (table (notify_loop env conf funds st)) (ID fund) = true.
Proof.
  revert st; induction funds as [|f rest IH]; intros st Hfp Hfc Hin Hne.
  - destruct Hin.
  - rewrite notify_loop_cons in *.
    pose proof (loop_body_iteration env conf f st) as Hit.
    destruct (iteration_grows env conf f st _ Hit)
      as (added1 & new1 & _ & Hn1 & _).
    destruct (notify_loop_grows env conf rest (loop_body env conf f st))
      as (added2 & new2 & _ & Hn2 & _).
    assert (Hfp1 : count is_failed_post (trace (loop_body env conf f st)) =
                   count is_failed_post (trace st)).
    { rewrite Hn2, Hn1, !count_app in Hfp. rewrite Hn1, count_app. lia. }
    assert (Hfc1 : count is_failed_create (trace (loop_body env conf f st)) =
                   count is_failed_create (trace st)).
    { rewrite Hn2, Hn1, !count_app in Hfc. rewrite Hn1, count_app. lia. }
    destruct Hin as [->|Hin].
    + apply notify_loop_sent_stays.
      apply (iteration_records fund st _ Hit Hfp1 Hfc1 Hne).
    + apply IH; auto; lia.
Qed.

End NothingFails.

Lemma notify_loop_all_sent (env : Env) (conf : Config) (funds : list Fund)
    (st : State) :
  (forall fund, In fund funds -> already_sent (table st) (ID fund) = true) ->
  existsb failed_query (loop_queries env conf funds st) = false ->
  notify_loop env conf funds st = st.
Proof.
  induction funds as [|f rest IH]; intros Hall Hq; [reflexivity|].
  rewrite notify_loop_cons. simpl in Hq.
  apply orb_false_iff in Hq. destruct Hq as [Hq1 Hq2].
  unfold failed_query in Hq1. simpl in Hq1.
  destruct (First_error env (length (trace st)) (ID f)) eqn:Hf;
    [discriminate|].
  assert (Hbody : loop_body env conf f st = st).
  { unfold loop_body.
    rewrite (is_sent_ran _ _ _ _ Hf), (Hall f (or_introl eq_refl)).
    reflexivity. }
  rewrite Hbody in *. apply IH; auto.
  intros fund Hin. apply Hall. right. exact Hin.
Qed.

(** X11. When no post and no insert fails, one pass records everything
    and a second pass does nothing.  If a pass of the loop appends no
    failed post and no failed insert, then after it the table holds a row
    that is not soft-deleted for every fund of the list with a non-empty
    identifier; and if no identifier of the list is empty, running the
    loop again over the same list, with any configuration and in any
    world, leaves the state as it is (no post, no insert, no log line),
    provided none of the queries of this second pass fails in the
    store. *)
Theorem second_pass_does_nothing (env : Env) (conf : Config)
    (funds : list Fund) (st : State) :
  count is_failed_post (trace (notify_loop env conf funds st)) =
    count is_failed_post (trace st) ->
  count is_failed_create (trace (notify_loop env conf funds st)) =
    count is_failed_create (trace st) ->
  (forall fund, In fund funds -> ID fund <> "" ->
     already_sent (table (notify_loop env conf funds st)) (ID fund) = true) /\
  (Forall (fun fund => ID fund <> "") funds ->
   forall (env' : Env) (conf' : Config),
     existsb failed_query
       (loop_queries env' conf' funds (notify_loop env conf funds st)) = false ->
     notify_loop env' conf' funds (notify_loop env conf funds st) =
     notify_loop env conf funds st).
Proof.
  intros Hfp Hfc. split.
  - intros fund Hin Hne.
    apply (notify_loop_records env conf funds st fund); assumption.
  - intros Hne env' conf' Hq. apply notify_loop_all_sent; [|exact Hq].
    intros fund Hin. rewrite Forall_forall in Hne.
    apply (notify_loop_records env conf funds st fund); auto.
Qed.

Lemma second_pass_does_nothing_witness :
  let st' := notify_loop (Sample.with_query Sample.locked (Sample.healthy []))
               Sample.conf [Sample.fundA; Sample.fundB]
               (mkState [Sample.row 4 (Some 1695000000%Z) "F3"] []) in
  already_sent (table st') "F1" = true /\
  notify_loop (Sample.world None (Err "unused") Sample.rejects Sample.disk_full)
              Sample.conf [Sample.fundA; Sample.fundB] st' = st'.
Proof.
  intros st'.
  destruct (second_pass_does_nothing
              (Sample.with_query Sample.locked (Sample.healthy []))
              Sample.conf [Sample.fundA; Sample.fundB]
              (mkState [Sample.row 4 (Some 1695000000%Z) "F3"] []))
    as [Hrec Hagain].
  - reflexivity.
  - reflexivity.
  - split.
    + apply (Hrec Sample.fundA); [simpl; auto|discriminate].
    + apply Hagain.
      * repeat (constructor; [discriminate|]). constructor.
      * reflexivity.
Defined.

(** ** The order and the number of the posts *)

Lemma posted_ids_app (l l' : list event) :
  posted_ids (l ++ l') = posted_ids l ++ posted_ids l'.
Proof. unfold posted_ids. apply flat_map_app. Qed.

(** X12. Funds are notified in the order of the response.  For a list
    with pairwise distinct, non-empty identifiers, and a pass of the loop
    none of whose queries fails in the store, the identifiers under which
    the loop posts, in the order of the posts, are the identifiers of the
    funds that had no row that is not soft-deleted when the loop started,
    in the order of the list. *)
Theorem posts_follow_list_order (env : Env) (conf : Config)
    (funds : list Fund) (st : State) :
  NoDup (map ID funds) ->
  Forall (fun fund => ID fund <> "") funds ->
  existsb failed_query (loop_queries env conf funds st) = false ->
  posted_ids (trace (notify_loop env conf funds st)) =
  posted_ids (trace st) ++
  map ID (filter (fun fund => negb (has_live_record (table st) (ID fund))) funds).
Proof.
  revert st; induction funds as [|fund rest IH]; intros st Hnd Hne Hq.
  - simpl. rewrite app_nil_r. reflexivity.
  - rewrite notify_loop_cons.
    inversion Hnd as [|x l Hnotin Hnd' [Hx Hl]]; subst.
    inversion Hne as [|x l Hfund Hne' [Hx Hl]]; subst.
    simpl in Hq. apply orb_false_iff in Hq. destruct Hq as [Hq1 Hq2].
    unfold failed_query in Hq1. simpl in Hq1.
    destruct (First_error env (length (trace st)) (ID fund)) eqn:Hf;
      [discriminate|].
    pose proof (loop_body_iteration env conf fund st) as Hit.
    rewrite (IH _ Hnd' Hne' Hq2).
    destruct (iteration_grows env conf fund st _ Hit)
      as (added & new & _ & Hn & _ & _ & _ & _ & Hids).
    rewrite Hn, posted_ids_app, Hids.
    rewrite (is_sent_ran _ _ _ _ Hf).
    rewrite already_sent_live by assumption.
    assert (Hsame :
      filter (fun g => negb (has_live_record
                               (table (loop_body env conf fund st)) (ID g))) rest =
      filter (fun g => negb (has_live_record (table st) (ID g))) rest).
    { apply filter_ext_in. intros g Hg. f_equal.
      apply (iteration_other_record env conf fund st _ (ID g) Hit).
      intros Heq. apply Hnotin. rewrite <- Heq. apply in_map. exact Hg. }
    rewrite Hsame. cbn [filter].
    destruct (has_live_record (table st) (ID fund)); cbn [negb map];
      rewrite <- app_assoc; reflexivity.
Qed.

Lemma posts_follow_list_order_witness :
  posted_ids
    (trace (notify_loop
              (Sample.world None (Err "unused") Sample.rejects Sample.writes)
              Sample.conf
              [Sample.fundB; Sample.fundA]
              (mkState [Sample.row 1 (Some 1695000000%Z) "F1"] []))) =
  [] ++ map ID (filter (fun fund =>
                          negb (has_live_record
                                  [Sample.row 1 (Some 1695000000%Z) "F1"]
                                  (ID fund)))
                       [Sample.fundB; Sample.fundA]).
Proof.
  apply (posts_follow_list_order
           (Sample.world None (Err "unused") Sample.rejects Sample.writes)
           Sample.conf [Sample.fundB; Sample.fundA]
           (mkState [Sample.row 1 (Some 1695000000%Z) "F1"] [])).
  - simpl. constructor.
    + simpl. intros [H|[]]. discriminate H.
    + constructor; [intros []|constructor].
  - constructor; [discriminate|]. constructor; [discriminate|constructor].
  - reflexivity.
Defined.

(** X13. The loop never posts more often than the list has funds, and
    never appends more than three events per fund, in any world and for
    any list, with or without repeated identifiers. *)
Theorem posts_are_bounded (env : Env) (conf : Config) (funds : list Fund)
    (st : State) :
  count is_post (trace (notify_loop env conf funds st)) <=
    count is_post (trace st) + length funds /\
  length (trace (notify_loop env conf funds st)) <=
    length (trace st) + 3 * length funds.
Proof.
  revert st; induction funds as [|fund rest IH]; intros st.
  - simpl. lia.
  - rewrite notify_loop_cons.
    pose proof (loop_body_iteration env conf fund st) as Hit.
    destruct (IH (loop_body env conf fund st)) as [IHp IHl].
    pose proof (iteration_posts env conf fund st _ Hit) as Hp.
    assert (Hlen : length (trace (loop_body env conf fund st)) <=
                   length (trace st) + 3).
    { destruct Hit as [Hs | e Hs Hp' | e Hs Hp' Hc | row Hs Hp' Hio Hr Hid Hl];
        simpl; rewrite ?length_app; simpl; lia. }
    destruct (is_sent env (length (trace st)) (table st) (ID fund));
      simpl length; lia.
Qed.
